(** * Policy-Impact dashboard (app.py): a shallow embedding and its properties

    The program is one Streamlit script.  It loads three CSV files into
    pandas tables, shows one of three dataset tabs (a dropdown of values,
    the filtered table, a chart of it) and sends a free-text question with
    the text of all three tables to a hosted question-answering model.

    The file is organised as follows.
    - [cell], [Series], [DataFrame]: the tables, column by column as pandas
      stores them, and the pandas operations the script applies to them.
    - [Figure] and [px_bar], [px_line], [px_pie]: the chart objects.
    - [M]: the script monad (exceptions, module-level table variables, the
      page written so far, the requests sent to the hosted model).
    - the script itself, block by block, in source order.
    - the properties. *)

From Stdlib Require Import ZArith Ascii String List Bool Lia.
From stdpp Require Import base option list strings gmap pretty.
Import ListNotations.
Local Open Scope string_scope.

(** ** Cells, series and frames *)

(** A cell of a table read from a CSV file: text, a number, or the missing
    value.  Numbers are integers here; fractional values are outside the
    model. *)
Inductive cell : Type :=
  | Str (s : string)
  | Num (n : Z)
  | NaN.

#[global] Instance cell_eq_dec : EqDecision cell.
Proof. solve_decision. Defined.

(** A Python scalar as the script handles it: a cell value or [None]
    (what [st.selectbox] returns for an empty option list). *)
Abbreviation scalar := (option cell).

(** Python [a == b] on scalars.  The missing value is equal to nothing, not
    even to itself; text and numbers are never equal; [None] is equal to
    [None] only. *)
Definition cell_eqb (a b : cell) : bool :=
  match a, b with
  | Str s, Str t => String.eqb s t
  | Num n, Num m => Z.eqb n m
  | _, _ => false
  end.

Definition py_eq (a b : scalar) : bool :=
  match a, b with
  | Some x, Some y => cell_eqb x y
  | None, None => true
  | _, _ => false
  end.

(** [str(v)], as the f-strings of the script apply it. *)
Definition py_str (v : scalar) : string :=
  match v with
  | None => "None"
  | Some (Str s) => s
  | Some (Num n) => pretty n
  | Some NaN => "nan"
  end.

Definition isna (c : cell) : bool :=
  match c with NaN => true | _ => false end.

(** A column: its cells from the first row to the last. *)
Abbreviation Series := (list cell).

(** A table: the row labels and the named columns, in column order. *)
Record DataFrame : Type := mkDataFrame {
  index : list Z;
  data : list (string * Series)
}.

#[global] Instance DataFrame_eq_dec : EqDecision DataFrame.
Proof. solve_decision. Defined.

(** [df.columns] *)
Definition columns (df : DataFrame) : list string := map fst (data df).

(** [pd.DataFrame()]: no rows, no columns. *)
Definition empty_DataFrame : DataFrame := mkDataFrame [] [].

(** Every column has one cell per row label. *)
Definition well_formed (df : DataFrame) : Prop :=
  Forall (fun c : string * Series => length (snd c) = length (index df)) (data df).

(** The Python exceptions the script can meet. *)
Inductive exn : Type :=
  | KeyError (key : string)
  | IndexError (msg : string)
  | NameError (name : string)
  | ValueError (msg : string)
  | FileNotFoundError (path : string)
  | EmptyDataError (msg : string)
  | ParserError (line expected saw : nat)
  | HTTPError (msg : string).

Inductive result (A : Type) : Type :=
  | Ok (a : A)
  | Raise (e : exn).
Arguments Ok {A} a.
Arguments Raise {A} e.

(** ** The pandas operations of the script *)

Fixpoint lookup_col (c : string) (d : list (string * Series)) : option Series :=
  match d with
  | [] => None
  | (name, s) :: d' => if String.eqb name c then Some s else lookup_col c d'
  end.

(** [df[c]] for a column label [c]. *)
Definition getitem_col (df : DataFrame) (c : string) : result Series :=
  match lookup_col c (data df) with
  | Some s => Ok s
  | None => Raise (KeyError c)
  end.

(** [df.columns[0]] *)
Definition first_column (df : DataFrame) : result string :=
  match columns df with
  | c :: _ => Ok c
  | [] => Raise (IndexError "index 0 is out of bounds for axis 0 with size 0")
  end.

(** [series == v]: the boolean series of the cell-wise comparison. *)
Definition series_eq (s : Series) (v : scalar) : list bool :=
  map (fun c => py_eq (Some c) v) s.

(** Selection of the positions where the mask is true. *)
Fixpoint take_mask {A : Type} (mask : list bool) (xs : list A) : list A :=
  match mask, xs with
  | b :: mask', x :: xs' =>
      if b then x :: take_mask mask' xs' else take_mask mask' xs'
  | _, _ => []
  end.

(** [df[mask]] for a boolean series: a new table with the rows where the
    mask is true, labels kept.  pandas refuses a mask of another length. *)
Definition getitem_mask (df : DataFrame) (mask : list bool) : result DataFrame :=
  if Nat.eqb (length mask) (length (index df)) then
    Ok (mkDataFrame (take_mask mask (index df))
                    (map (fun c : string * Series => (fst c, take_mask mask (snd c)))
                         (data df)))
  else Raise (ValueError "Item wrong length").

(** [series.dropna()] *)
Definition dropna (s : Series) : Series :=
  List.filter (fun c => negb (isna c)) s.

(** [series.unique()]: the distinct values in order of first appearance. *)
Fixpoint unique_from (seen : list cell) (s : Series) : list cell :=
  match s with
  | [] => []
  | x :: s' =>
      if bool_decide (x ∈ seen) then unique_from seen s'
      else x :: unique_from (x :: seen) s'
  end.

Definition unique (s : Series) : list cell := unique_from [] s.

(** The rows of a table, as the reader of the page sees them: the label and
    the cells of each row, from the first row to the last. *)
Definition row : Type := Z * list cell.

Fixpoint rows_of (idx : list Z) (cs : list Series) : list row :=
  match idx with
  | [] => []
  | i :: idx' => (i, map (hd NaN) cs) :: rows_of idx' (map (@tl cell) cs)
  end.

Definition rows (df : DataFrame) : list row :=
  rows_of (index df) (map snd (data df)).

(** The cell of a row under the column named [c]. *)
Fixpoint row_cell (names : list string) (c : string) (r : list cell) : option cell :=
  match names, r with
  | name :: names', x :: r' =>
      if String.eqb name c then Some x else row_cell names' c r'
  | _, _ => None
  end.

(** Does the row hold the value [v] in column [c]? *)
Definition row_has (df : DataFrame) (c : string) (v : scalar) (r : row) : bool :=
  match row_cell (columns df) c (snd r) with
  | Some x => py_eq (Some x) v
  | None => false
  end.

(** In how many rows of the column the value occurs. *)
Definition occurrences (s : Series) (v : scalar) : nat :=
  length (List.filter (fun c => py_eq (Some c) v) s).

(** [pd.concat(frames, ignore_index=True)]: the rows of the frames one after
    the other, under the union of their columns in order of first
    appearance; a frame that lacks a column contributes missing values;
    the rows are labelled anew from 0. *)
Fixpoint distinct_names (seen : list string) (names : list string) : list string :=
  match names with
  | [] => []
  | c :: names' =>
      if bool_decide (c ∈ seen) then distinct_names seen names'
      else c :: distinct_names (c :: seen) names'
  end.

Definition column_or_missing (c : string) (df : DataFrame) : Series :=
  match lookup_col c (data df) with
  | Some s => s
  | None => repeat NaN (length (index df))
  end.

Definition range_index (n : nat) : list Z := map Z.of_nat (seq 0 n).

Definition concat_ignore_index (frames : list DataFrame) : DataFrame :=
  let names := distinct_names [] (flat_map columns frames) in
  let n := length (flat_map index frames) in
  mkDataFrame (range_index n)
    (map (fun c => (c, flat_map (column_or_missing c) frames)) names).

(** ** Reading a CSV file

    The file system maps a path to the records of the file, already split
    into fields (quoting and delimiters are the tokenizer's business); the
    first record is the header.  A record with more fields than the header
    is a bad line; a shorter one is completed with missing values.

    The model is that of plain files: the first record after the header is
    not longer than the header, the column names are distinct and not
    empty, numbers are integers and only the empty field is missing.  On
    other files pandas does more (row labels taken from a longer first
    record, renamed columns, fractional numbers, other spellings of the
    missing value); the properties below that are stated on the outcome of
    the reading do not depend on it. *)
Abbreviation csv_file := (list (list string)).

Inductive bad_lines : Type :=
  | bad_lines_error    (* the default: on_bad_lines="error" *)
  | bad_lines_skip.    (* on_bad_lines="skip" *)

Definition is_digit (a : Ascii.ascii) : bool :=
  (48 <=? Ascii.nat_of_ascii a)%nat && (Ascii.nat_of_ascii a <=? 57)%nat.

Fixpoint digits_value (acc : Z) (s : string) : option Z :=
  match s with
  | EmptyString => Some acc
  | String a s' =>
      if is_digit a
      then digits_value (10 * acc + (Z.of_nat (Ascii.nat_of_ascii a) - 48)) s'
      else None
  end.

Definition parse_int (s : string) : option Z :=
  match s with
  | EmptyString => None
  | String a s' =>
      if Ascii.eqb a "-"%char
      then match s' with
           | EmptyString => None
           | _ => Z.opp <$> digits_value 0 s'
           end
      else digits_value 0 s
  end.

(** The type of a column is inferred from all its fields: a column of
    integer literals (and empty fields) is numeric, any other column keeps
    its fields as text.  An empty field is the missing value. *)
Definition numeric_field (f : string) : bool :=
  String.eqb f "" || bool_decide (is_Some (parse_int f)).

Definition infer_column (fields : list string) : Series :=
  if forallb numeric_field fields
  then map (fun f => match parse_int f with Some n => Num n | None => NaN end) fields
  else map (fun f => if String.eqb f "" then NaN else Str f) fields.

Definition bad_line (expected : nat) (r : list string) : bool :=
  (expected <? length r)%nat.

(** The records kept by the parser; [line] is the number of the line of the
    first record (the header is line 1). *)
Fixpoint parse_lines (policy : bad_lines) (expected line : nat)
    (records : list (list string)) : result (list (list string)) :=
  match records with
  | [] => Ok []
  | r :: records' =>
      if bad_line expected r then
        match policy with
        | bad_lines_error => Raise (ParserError line expected (length r))
        | bad_lines_skip => parse_lines policy expected (S line) records'
        end
      else
        match parse_lines policy expected (S line) records' with
        | Ok kept => Ok (r :: kept)
        | Raise e => Raise e
        end
  end.

Definition frame_of_records (header : list string) (kept : list (list string))
    : DataFrame :=
  mkDataFrame (range_index (length kept))
    (imap (fun j name => (name, infer_column (map (fun r => nth j r "") kept)))
          header).

(** [pd.read_csv(path, on_bad_lines=policy)] *)
Definition read_csv (fs : gmap string csv_file) (path : string)
    (policy : bad_lines) : result DataFrame :=
  match fs !! path with
  | None => Raise (FileNotFoundError path)
  | Some [] => Raise (EmptyDataError "No columns to parse from file")
  | Some (header :: records) =>
      match parse_lines policy (length header) 2 records with
      | Ok kept => Ok (frame_of_records header kept)
      | Raise e => Raise e
      end
  end.

(** [str(e)] for the exceptions of the reader. *)
Definition exn_str (e : exn) : string :=
  match e with
  | KeyError k => "'" ++ k ++ "'"
  | IndexError m => m
  | NameError n => "name '" ++ n ++ "' is not defined"
  | ValueError m => m
  | FileNotFoundError p => "[Errno 2] No such file or directory: '" ++ p ++ "'"
  | EmptyDataError m => m
  | ParserError line expected saw =>
      "Error tokenizing data. C error: Expected " ++ pretty expected
      ++ " fields in line " ++ pretty line ++ ", saw " ++ pretty saw
  | HTTPError m => m
  end.

(** ** Charts (plotly express)

    A figure made from a table with only the two axis columns given holds
    one trace: the cells of the first column and the cells of the second,
    row by row.  For a pie the two arrays are the labels and the values of
    the trace. *)
Inductive chart_kind : Type := Bar | Line | Pie.

Record Figure : Type := mkFigure {
  kind : chart_kind;
  x_label : string;
  y_label : string;
  x_data : Series;
  y_data : Series;
  title : string
}.

(** An axis argument must name a column of the table. *)
Definition axis_column (df : DataFrame) (arg : scalar) : result (string * Series) :=
  match arg with
  | Some (Str c) =>
      match lookup_col c (data df) with
      | Some s => Ok (c, s)
      | None => Raise (ValueError ("Value of axis is not the name of a column: " ++ c))
      end
  | _ => Raise (ValueError "Axis argument is not a column name")
  end.

Definition make_figure (k : chart_kind) (df : DataFrame) (x y : scalar)
    (ttl : string) : result Figure :=
  match axis_column df x with
  | Raise e => Raise e
  | Ok (xn, xs) =>
      match axis_column df y with
      | Raise e => Raise e
      | Ok (yn, ys) => Ok (mkFigure k xn yn xs ys ttl)
      end
  end.

(** [px.bar(df, x=x, y=y, title=t)] *)
Definition px_bar (df : DataFrame) (x y : scalar) (t : string) : result Figure :=
  make_figure Bar df x y t.

(** [px.line(df, x=x, y=y, title=t)] *)
Definition px_line (df : DataFrame) (x y : scalar) (t : string) : result Figure :=
  make_figure Line df x y t.

(** [px.pie(df, names=names, values=values, title=t)] *)
Definition px_pie (df : DataFrame) (names values : scalar) (t : string)
    : result Figure :=
  make_figure Pie df names values t.

(** The data series of a figure: one point per position of its arrays. *)
Definition series_points (fig : Figure) : list (cell * cell) :=
  combine (x_data fig) (y_data fig).

(** ** The script monad

    A run of the script can raise, writes elements to the page, binds the
    module-level table variables and sends requests to the hosted model.
    What was written and bound before an exception stays. *)
Record payload : Type := mkPayload {
  question : string;
  context : string
}.

Inductive element : Type :=
  | PageConfig (page_title page_icon layout : string)
  | Title (s : string)
  | Write (s : string)
  | WriteIndex (names : list string)
  | Markdown (s : string)
  | Subheader (s : string)
  | ErrorBox (s : string)
  | DataframeView (df : DataFrame)
  | PlotlyChart (fig : Figure)
  | Selectbox (label : string) (options : list cell)
  | TextInput (label : string).

Record session : Type := mkSession {
  globals : gmap string DataFrame;
  page : list element;
  requests : list payload
}.

Definition M (A : Type) : Type := session -> result A * session.

Definition ret {A : Type} (a : A) : M A := fun s => (Ok a, s).

Definition bind {A B : Type} (m : M A) (k : A -> M B) : M B :=
  fun s =>
    match m s with
    | (Ok a, s') => k a s'
    | (Raise e, s') => (Raise e, s')
    end.

Declare Scope script_scope.
Delimit Scope script_scope with script.
Notation "x <- m ;; k" := (bind m (fun x => k))
  (at level 100, m at next level, k at level 200, right associativity)
  : script_scope.
Notation "m ;; k" := (bind m (fun _ => k))
  (at level 100, k at level 200, right associativity) : script_scope.
Local Open Scope script_scope.

(** A pandas or plotly call inside the script. *)
Definition lift {A : Type} (r : result A) : M A := fun s => (r, s).

(** [try: body except Exception as e: handler(e)] *)
Definition try_except {A : Type} (body : M A) (handler : exn -> M A) : M A :=
  fun s =>
    match body s with
    | (Ok a, s') => (Ok a, s')
    | (Raise e, s') => handler e s'
    end.

(** Reading and binding a module-level table variable. *)
Definition getvar (name : string) : M DataFrame :=
  fun s =>
    match globals s !! name with
    | Some df => (Ok df, s)
    | None => (Raise (NameError name), s)
    end.

Definition setvar (name : string) (df : DataFrame) : M unit :=
  fun s => (Ok tt, mkSession (<[name := df]> (globals s)) (page s) (requests s)).

(** Streamlit calls: each appends one element to the page.  The calls are
    those that succeed; a failure inside Streamlit (a table it cannot
    convert for display) is outside the model. *)
Definition emit (e : element) : M unit :=
  fun s => (Ok tt, mkSession (globals s) (page s ++ [e]) (requests s)).

Definition st_set_page_config (t icon layout : string) : M unit :=
  emit (PageConfig t icon layout).
Definition st_title (s : string) : M unit := emit (Title s).
Definition st_write (s : string) : M unit := emit (Write s).
Definition st_write_index (names : list string) : M unit := emit (WriteIndex names).
Definition st_markdown (s : string) : M unit := emit (Markdown s).
Definition st_subheader (s : string) : M unit := emit (Subheader s).
Definition st_error (s : string) : M unit := emit (ErrorBox s).
Definition st_dataframe (df : DataFrame) : M unit := emit (DataframeView df).
Definition st_plotly_chart (fig : Figure) : M unit := emit (PlotlyChart fig).

(** [st.selectbox(label, options)]: the widget shows the options and gives
    back the one the user picked; the first one when the pick is not among
    them, [None] when there is none. *)
Definition pick (options : list cell) (choice : nat) : scalar :=
  match options !! choice with
  | Some v => Some v
  | None => head options
  end.

Definition st_selectbox (label : string) (options : list cell) (choice : nat)
    : M scalar :=
  emit (Selectbox label options);; ret (pick options choice).

Definition st_text_input (label : string) (typed : string) : M string :=
  emit (TextInput label);; ret typed.

(** What the user does on the page during one run. *)
Record inputs : Type := mkInputs {
  dataset_choice : nat;
  filter_choice : nat;
  chart_choice : nat;
  x_choice : nat;
  y_choice : nat;
  typed_question : string
}.

(** The option of the two later tabs that stands for the whole table. *)
Definition show_full_table : cell := Str "Show Full Table".

(** The expression [df[df[c] == v]] of lines 64, 100 and 143. *)
Definition filter_by (df : DataFrame) (c : string) (v : scalar) : result DataFrame :=
  match getitem_col df c with
  | Ok s => getitem_mask df (series_eq s v)
  | Raise e => Raise e
  end.

(** The expression [df[c].dropna().unique()] of lines 60, 91 and 134. *)
Definition distinct_values (df : DataFrame) (c : string) : result (list cell) :=
  match getitem_col df c with
  | Ok s => Ok (unique (dropna s))
  | Raise e => Raise e
  end.

(** ** The script *)

Definition sentinel_or (selected : scalar) (other : string) : string :=
  if negb (py_eq selected (Some show_full_table)) then py_str selected else other.

(** The texts in which the expenditure tab (lines 83-124) and the income-tax
    tab (lines 126-167) differ; the code of the two tabs is the same. *)
Record tab_texts : Type := mkTabTexts {
  tab_subheader : string;
  columns_caption : string;
  select_label : string;
  complete_caption : string;
  visualize_prefix : string
}.

Definition expenditure_texts : tab_texts :=
  mkTabTexts "📋 Expenditure Data"
             "**Columns in Expenditure Data:**"
             "Select an Item Group (State/Region) to View Expenditure Data"
             "### Complete Expenditure Data"
             "📊 Visualize the Expenditure Data for: ".

Definition income_tax_texts : tab_texts :=
  mkTabTexts "📉 Income Tax Data"
             "**Columns in Income Tax Data:**"
             "Select a Category to View Income Tax Data"
             "### Complete Income Tax Data"
             "📊 Visualize the Income Tax Data for: ".

Definition chart_types : list cell :=
  [Str "Bar Chart"; Str "Line Chart"; Str "Pie Chart"].

Definition dataset_types : list cell :=
  [Str "Budget Data"; Str "Expenditure Data"; Str "Income Tax Data"].

(** The option of the chart dropdown that asks for a kind of chart, and the
    start of the title of such a chart. *)
Definition chart_label (k : chart_kind) : cell :=
  match k with
  | Bar => Str "Bar Chart"
  | Line => Str "Line Chart"
  | Pie => Str "Pie Chart"
  end.

Definition chart_title (k : chart_kind) (selected : scalar) : string :=
  match k with
  | Bar => "Bar Chart for " ++ py_str selected
  | Line => "Line Chart for " ++ py_str selected
  | Pie => "Pie Chart for " ++ py_str selected
  end.

Section Script.

(** The hosted question-answering model behind [InferenceApi] (line 10):
    the parsed response, or the error of the call. *)
Variable hosted_model : payload -> result (gmap string scalar).

(** [DataFrame.to_string(index=False)]; the layout of the text is the
    library's business. *)
Variable to_string : DataFrame -> string.

(** The files on disk. *)
Variable fs : gmap string csv_file.

(** The user's picks in this run. *)
Variable ui : inputs.

(** [api(payload)] *)
Definition api (p : payload) : M (gmap string scalar) :=
  fun s => (hosted_model p, mkSession (globals s) (page s) (requests s ++ [p])).

(** Lines 13-16. *)
Definition query_hf_api (question context : string) : M scalar :=
  let payload := mkPayload question context in
  result <- api payload;;
  ret (default (Some (Str "No answer found.")) (result !! "answer")).

(** Lines 19-23.  [st.cache_data] keeps the returned table for later runs;
    the model is the run in which the body is executed. *)
Definition load_budget_data : M DataFrame :=
  let file_path := "Combined_Financial_Data.csv" in
  data <- lift (read_csv fs file_path bad_lines_error);;
  ret data.

(** Lines 25-29. *)
Definition load_expenditure_data : M DataFrame :=
  let file_path := "Expenditure.csv" in
  data <- lift (read_csv fs file_path bad_lines_error);;
  ret data.

(** Lines 31-39. *)
Definition load_income_tax_data : M DataFrame :=
  let file_path := "Income Tax.csv" in
  data <- try_except
            (lift (read_csv fs file_path bad_lines_skip))
            (fun e =>
               st_error ("Error loading Income Tax Data: " ++ exn_str e);;
               ret empty_DataFrame);;
  ret data.

(** Lines 42-44. *)
Definition load_data : M unit :=
  budget_data <- load_budget_data;;
  setvar "budget_data" budget_data;;
  expenditure_data <- load_expenditure_data;;
  setvar "expenditure_data" expenditure_data;;
  income_tax_data <- load_income_tax_data;;
  setvar "income_tax_data" income_tax_data.

(** The chart branches: lines 73-81 with the filtered budget table, lines
    116-124 and 159-167 with [data_to_plot]. *)
Definition chart_section (chart_type : scalar) (var : string)
    (x_axis y_axis selected : scalar) : M unit :=
  if py_eq chart_type (Some (Str "Bar Chart")) then
    df <- getvar var;;
    fig <- lift (px_bar df x_axis y_axis ("Bar Chart for " ++ py_str selected));;
    st_plotly_chart fig
  else if py_eq chart_type (Some (Str "Line Chart")) then
    df <- getvar var;;
    fig <- lift (px_line df x_axis y_axis ("Line Chart for " ++ py_str selected));;
    st_plotly_chart fig
  else if py_eq chart_type (Some (Str "Pie Chart")) then
    df <- getvar var;;
    fig <- lift (px_pie df x_axis y_axis ("Pie Chart for " ++ py_str selected));;
    st_plotly_chart fig
  else ret tt.

(** Lines 58-65: the source dropdown and the filtered budget table. *)
Definition budget_filter : M scalar :=
  st_subheader "📋 Budget Data";;
  budget_data <- getvar "budget_data";;
  budget_sources <- lift (distinct_values budget_data "Source");;
  selected_budget_source <-
    st_selectbox "Select a Source to View Budget Data" budget_sources
                 (filter_choice ui);;
  budget_data <- getvar "budget_data";;
  filtered <- lift (filter_by budget_data "Source" selected_budget_source);;
  setvar "filtered_budget_data" filtered;;
  filtered_budget_data <- getvar "filtered_budget_data";;
  st_dataframe filtered_budget_data;;
  ret selected_budget_source.

(** Lines 67-81. *)
Definition budget_visualize (selected_budget_source : scalar) : M unit :=
  st_subheader ("📊 Visualize the Budget Data for Source: "
                ++ py_str selected_budget_source);;
  chart_type <- st_selectbox "Choose a chart type" chart_types (chart_choice ui);;
  filtered_budget_data <- getvar "filtered_budget_data";;
  x_axis <- st_selectbox "Select X-axis" (map Str (columns filtered_budget_data))
                         (x_choice ui);;
  filtered_budget_data <- getvar "filtered_budget_data";;
  y_axis <- st_selectbox "Select Y-axis" (map Str (columns filtered_budget_data))
                         (y_choice ui);;
  chart_section chart_type "filtered_budget_data" x_axis y_axis
                selected_budget_source.

Definition budget_tab : M unit :=
  selected_budget_source <- budget_filter;;
  budget_visualize selected_budget_source.

(** Lines 84-102 and 127-145: the column names, the dropdown with the
    extra first option, and the whole or the filtered table. *)
Definition category_filter (t : tab_texts) (var filtered_var : string) : M scalar :=
  st_subheader (tab_subheader t);;
  st_write (columns_caption t);;
  table <- getvar var;;
  st_write_index (columns table);;
  table <- getvar var;;
  first <- lift (first_column table);;
  groups <- lift (distinct_values table first);;
  let dropdown_options := ([show_full_table] ++ groups)%list in
  selected <- st_selectbox (select_label t) dropdown_options (filter_choice ui);;
  (if py_eq selected (Some show_full_table) then
     st_write (complete_caption t);;
     table <- getvar var;;
     st_dataframe table
   else
     table <- getvar var;;
     first <- lift (first_column table);;
     filtered <- lift (filter_by table first selected);;
     setvar filtered_var filtered;;
     st_write ("### Filtered Data for: " ++ py_str selected);;
     filtered <- getvar filtered_var;;
     st_dataframe filtered);;
  ret selected.

(** Lines 104-124 and 147-167. *)
Definition category_visualize (t : tab_texts) (var filtered_var : string)
    (selected : scalar) : M unit :=
  st_subheader (visualize_prefix t ++ sentinel_or selected "Complete Data");;
  chart_type <- st_selectbox "Choose a chart type" chart_types (chart_choice ui);;
  table <- getvar var;;
  x_axis <- st_selectbox "Select X-axis" (map Str (columns table)) (x_choice ui);;
  table <- getvar var;;
  y_axis <- st_selectbox "Select Y-axis" (map Str (columns table)) (y_choice ui);;
  (if py_eq selected (Some show_full_table) then
     table <- getvar var;;
     setvar "data_to_plot" table
   else
     filtered <- getvar filtered_var;;
     setvar "data_to_plot" filtered);;
  chart_section chart_type "data_to_plot" x_axis y_axis selected.

Definition category_tab (t : tab_texts) (var filtered_var : string) : M unit :=
  selected <- category_filter t var filtered_var;;
  category_visualize t var filtered_var selected.

Definition expenditure_tab : M unit :=
  category_tab expenditure_texts "expenditure_data" "filtered_expenditure_data".

Definition income_tax_tab : M unit :=
  category_tab income_tax_texts "income_tax_data" "filtered_income_tax_data".

(** Lines 174-179. *)
Definition answer_question (question : string) : M unit :=
  budget_data <- getvar "budget_data";;
  expenditure_data <- getvar "expenditure_data";;
  income_tax_data <- getvar "income_tax_data";;
  setvar "all_data"
         (concat_ignore_index [budget_data; expenditure_data; income_tax_data]);;
  all_data <- getvar "all_data";;
  let context := to_string all_data in
  answer <- query_hf_api question context;;
  st_write ("**Answer:** " ++ py_str answer).

(** Lines 55-167: the dataset dropdown and the tab it selects. *)
Definition dataset_section : M unit :=
  dataset_type <- st_selectbox "Select Dataset Type" dataset_types
                               (dataset_choice ui);;
  if py_eq dataset_type (Some (Str "Budget Data")) then budget_tab
  else if py_eq dataset_type (Some (Str "Expenditure Data")) then expenditure_tab
  else if py_eq dataset_type (Some (Str "Income Tax Data")) then income_tax_tab
  else ret tt.

(** Lines 169-179. *)
Definition question_section : M unit :=
  st_markdown "---";;
  st_subheader "🤔 Ask Questions about the Data";;
  question <- st_text_input "Enter your question about the data:"
                            (typed_question ui);;
  if negb (String.eqb question "") then answer_question question else ret tt.

(** The whole script, top to bottom. *)
Definition app : M unit :=
  st_set_page_config "AI-Powered Policy Impact Analyzer" "🤖" "wide";;
  load_data;;
  st_title "🤖 AI-Powered Policy Impact Analyzer";;
  st_write "
Welcome to the **AI-Powered Policy Impact Analyzer**.  
Switch between datasets and explore insights dynamically.
";;
  st_markdown "---";;
  dataset_section;;
  question_section;;
  st_markdown "---";;
  st_write "**Developed with ❤️ using Streamlit, Pandas, Plotly, and Hugging Face API**".

End Script.

(** A fresh run: nothing bound, an empty page, no request sent. *)
Definition fresh_session : session := mkSession ∅ [] [].

(** The three tables bound by the loading lines 42-44. *)
Definition loaded_tables (s : session)
    : option DataFrame * option DataFrame * option DataFrame :=
  (globals s !! "budget_data",
   globals s !! "expenditure_data",
   globals s !! "income_tax_data").

(** A block of the script that leaves the three loaded tables as they are,
    whatever it does besides and whether it raises or not. *)
Definition keeps_tables {A : Type} (m : M A) : Prop :=
  forall s : session, loaded_tables (snd (m s)) = loaded_tables s.

(** A block that sends no request to the hosted model. *)
Definition sends_nothing {A : Type} (m : M A) : Prop :=
  forall s : session, requests (snd (m s)) = requests s.

(** A block that sends no request, or one request with the question [q]. *)
Definition sends_at_most_one {A : Type} (q : string) (m : M A) : Prop :=
  forall s : session,
    requests (snd (m s)) = requests s
    \/ exists ctx : string, requests (snd (m s)) = (requests s ++ [mkPayload q ctx])%list.

(** The tables shown on a page, in the order they were shown. *)
Fixpoint shown_tables (p : list element) : list DataFrame :=
  match p with
  | [] => []
  | DataframeView df :: p' => df :: shown_tables p'
  | _ :: p' => shown_tables p'
  end.

(** The charts drawn on a page. *)
Fixpoint shown_charts (p : list element) : list Figure :=
  match p with
  | [] => []
  | PlotlyChart fig :: p' => fig :: shown_charts p'
  | _ :: p' => shown_charts p'
  end.

(** The dropdowns of a page: the label and the options of each. *)
Fixpoint dropdowns (p : list element) : list (string * list cell) :=
  match p with
  | [] => []
  | Selectbox label options :: p' => (label, options) :: dropdowns p'
  | _ :: p' => dropdowns p'
  end.

(** The error boxes of a page. *)
Fixpoint error_boxes (p : list element) : list string :=
  match p with
  | [] => []
  | ErrorBox msg :: p' => msg :: error_boxes p'
  | _ :: p' => error_boxes p'
  end.

(** ** Sample data for the concrete runs *)

Definition sample_budget_csv : csv_file :=
  [ ["Source"; "Year"; "Amount"];
    ["A"; "2020"; "10"];
    ["B"; "2020"; "20"];
    ["A"; "2021"; "30"] ].

Definition sample_expenditure_csv : csv_file :=
  [ ["State"; "Spend"];
    ["Goa"; "5"];
    ["Kerala"; "7"];
    ["Goa"; "9"] ].

(** The third record has one field too many. *)
Definition sample_income_tax_csv : csv_file :=
  [ ["Bracket"; "Rate"];
    ["Low"; "5"];
    ["Mid"; "10"; "oops"];
    ["High"; "30"] ].

Definition sample_fs : gmap string csv_file :=
  {[ "Combined_Financial_Data.csv" := sample_budget_csv;
     "Expenditure.csv" := sample_expenditure_csv;
     "Income Tax.csv" := sample_income_tax_csv ]}.

(** A disk on which all three files have a record with too many fields. *)
Definition sample_bad_fs : gmap string csv_file :=
  {[ "Combined_Financial_Data.csv" := sample_income_tax_csv;
     "Expenditure.csv" := sample_income_tax_csv;
     "Income Tax.csv" := sample_income_tax_csv ]}.

Definition sample_budget : DataFrame :=
  mkDataFrame [0; 1; 2]%Z
    [ ("Source", [Str "A"; Str "B"; Str "A"]);
      ("Year", [Num 2020; Num 2020; Num 2021]);
      ("Amount", [Num 10; Num 20; Num 30]) ].

Definition sample_expenditure : DataFrame :=
  mkDataFrame [0; 1; 2]%Z
    [ ("State", [Str "Goa"; Str "Kerala"; Str "Goa"]);
      ("Spend", [Num 5; Num 7; Num 9]) ].

Definition sample_income_tax : DataFrame :=
  mkDataFrame [0; 1]%Z
    [ ("Bracket", [Str "Low"; Str "High"]);
      ("Rate", [Num 5; Num 30]) ].

(** A table in which the text of the extra dropdown option is a value of
    the first column. *)
Definition sample_clash : DataFrame :=
  mkDataFrame [0; 1]%Z
    [ ("State", [Str "Show Full Table"; Str "Goa"]);
      ("Spend", [Num 1; Num 2]) ].

Definition session_with (b e i : DataFrame) : session :=
  mkSession (<["income_tax_data" := i]>
              (<["expenditure_data" := e]> (<["budget_data" := b]> ∅)))
            [] [].

Definition sample_session : session :=
  session_with sample_budget sample_expenditure sample_income_tax.

(** Stubs of the hosted model. *)
Definition model_answers_42 (p : payload) : result (gmap string scalar) :=
  Ok {[ "answer" := Some (Str "42") ]}.

Definition model_without_answer (p : payload) : result (gmap string scalar) :=
  Ok {[ "error" := Some (Str "Model is loading") ]}.

Definition model_unreachable (p : payload) : result (gmap string scalar) :=
  Raise (HTTPError "503 Server Error: Service Unavailable").

(** A plain rendering of a table: the column names. *)
Definition plain_to_string (df : DataFrame) : string :=
  String.concat " " (columns df).

Definition sample_inputs : inputs := mkInputs 1 1 2 0 1 "What is the rate?".

Local Open Scope list_scope.

(** * Properties *)

(** ** Masks, rows and columns *)

Lemma take_mask_map {A : Type} (f : A -> bool) (xs : list A) :
  take_mask (map f xs) xs = List.filter f xs.
Proof.
  induction xs as [|x xs IH]; simpl; [reflexivity|].
  destruct (f x); rewrite IH; reflexivity.
Qed.

Lemma take_mask_length_le {A : Type} (mask : list bool) (xs : list A) :
  length (take_mask mask xs) <= length xs.
Proof.
  revert xs; induction mask as [|b mask IH]; intros [|x xs]; simpl; try lia.
  specialize (IH xs). destruct b; simpl; lia.
Qed.

(** Two lists of one length lose the same positions under a mask. *)
Lemma take_mask_length_eq {A B : Type} (mask : list bool) (xs : list A) (ys : list B) :
  length xs = length ys ->
  length (take_mask mask xs) = length (take_mask mask ys).
Proof.
  revert xs ys; induction mask as [|b mask IH]; intros [|x xs] [|y ys] H;
    simpl in *; try reflexivity; try discriminate.
  injection H as H. specialize (IH xs ys H). destruct b; simpl; lia.
Qed.

Lemma rows_of_length (idx : list Z) (cs : list Series) :
  length (rows_of idx cs) = length idx.
Proof.
  revert cs; induction idx as [|i idx IH]; intros cs; simpl; [reflexivity|].
  rewrite IH; reflexivity.
Qed.

Lemma rows_length (df : DataFrame) : length (rows df) = length (index df).
Proof. apply rows_of_length. Qed.

(** Masking every column and the labels is masking the rows. *)
Lemma rows_of_take_mask (mask : list bool) :
  forall (idx : list Z) (cs : list Series),
    Forall (fun c => length c = length idx) cs ->
    rows_of (take_mask mask idx) (map (take_mask mask) cs)
    = take_mask mask (rows_of idx cs).
Proof.
  induction mask as [|b mask IH]; intros idx cs Hlen.
  - destruct idx; reflexivity.
  - destruct idx as [|i idx]; [reflexivity|].
    assert (Htl : Forall (fun c => length c = length idx) (map (@tl cell) cs)).
    { apply Forall_map. eapply Forall_impl; [exact Hlen|].
      intros [|x c] Hc; simpl in *; [discriminate | lia]. }
    assert (Hmt : map (take_mask mask) (map (@tl cell) cs)
                  = map (fun c => take_mask mask (tl c)) cs)
      by (rewrite map_map; reflexivity).
    destruct b; simpl.
    + f_equal.
      * f_equal. rewrite map_map. apply map_ext_Forall.
        eapply Forall_impl; [exact Hlen|].
        intros [|x c] Hc; simpl in *; [discriminate | reflexivity].
      * rewrite <- (IH idx _ Htl), Hmt, map_map. f_equal.
        apply map_ext_Forall. eapply Forall_impl; [exact Hlen|].
        intros [|x c] Hc; simpl in *; [discriminate | reflexivity].
    + rewrite <- (IH idx _ Htl), Hmt. f_equal.
      apply map_ext_Forall. eapply Forall_impl; [exact Hlen|].
      intros [|x c] Hc; simpl in *; [discriminate | reflexivity].
Qed.

Lemma lookup_col_tl (c : string) (d : list (string * Series)) (s : Series) :
  lookup_col c d = Some s ->
  lookup_col c (map (fun p : string * Series => (fst p, tl (snd p))) d) = Some (tl s).
Proof.
  induction d as [|[name col] d IH]; simpl; [discriminate|].
  destruct (String.eqb name c); [intros [= ->]; reflexivity | exact IH].
Qed.

Lemma row_cell_heads (c : string) (d : list (string * Series)) (s : Series) :
  lookup_col c d = Some s ->
  row_cell (map fst d) c (map (hd NaN) (map snd d)) = Some (hd NaN s).
Proof.
  induction d as [|[name col] d IH]; simpl; [discriminate|].
  destruct (String.eqb name c); [intros [= ->]; reflexivity | exact IH].
Qed.

(** Reading column [c] off the rows gives the column. *)
Lemma rows_of_column (c : string) :
  forall (idx : list Z) (d : list (string * Series)) (s : Series),
    lookup_col c d = Some s ->
    length s = length idx ->
    map (fun r : row => row_cell (map fst d) c (snd r)) (rows_of idx (map snd d))
    = map Some s.
Proof.
  induction idx as [|i idx IH]; intros d s Hc Hlen.
  - destruct s; [reflexivity | discriminate].
  - destruct s as [|x s]; [discriminate|]. simpl in Hlen. injection Hlen as Hlen.
    simpl. f_equal.
    + rewrite (row_cell_heads c d _ Hc). reflexivity.
    + specialize (IH (map (fun p : string * Series => (fst p, tl (snd p))) d) s).
      rewrite !map_map in IH. simpl in IH. rewrite map_map.
      rewrite <- IH; [| apply (lookup_col_tl c d _ Hc) | exact Hlen].
      f_equal.
Qed.

Lemma take_mask_by_cell {A : Type} (cellof : A -> option cell) (p : cell -> bool) :
  forall (xs : list A) (col : Series),
    map cellof xs = map Some col ->
    take_mask (map p col) xs
    = List.filter (fun x => match cellof x with Some c => p c | None => false end) xs.
Proof.
  induction xs as [|x xs IH]; intros [|c col] H; simpl in *;
    try reflexivity; try discriminate.
  injection H as Hx Hrest. rewrite Hx, (IH col Hrest). reflexivity.
Qed.

Lemma lookup_col_elem (c : string) (d : list (string * Series)) (s : Series) :
  lookup_col c d = Some s -> (c, s) ∈ d.
Proof.
  induction d as [|[name col] d IH]; simpl; [discriminate|].
  destruct (String.eqb name c) eqn:E.
  - apply String.eqb_eq in E as ->. intros [= ->]. left.
  - intros H. right. exact (IH H).
Qed.

Lemma well_formed_column (df : DataFrame) (c : string) (s : Series) :
  well_formed df -> lookup_col c (data df) = Some s ->
  length s = length (index df).
Proof.
  intros Hwf Hc. apply lookup_col_elem in Hc.
  unfold well_formed in Hwf. rewrite Forall_forall in Hwf.
  exact (Hwf _ Hc).
Qed.

Lemma lookup_col_map_snd (f : Series -> Series) (c : string)
    (d : list (string * Series)) :
  lookup_col c (map (fun p : string * Series => (fst p, f (snd p))) d)
  = f <$> lookup_col c d.
Proof.
  induction d as [|[name col] d IH]; simpl; [reflexivity|].
  destruct (String.eqb name c); [reflexivity | exact IH].
Qed.

(** ** The filter expression [df[df[c] == v]] *)

Lemma getitem_col_lookup (df : DataFrame) (c : string) (col : Series) :
  getitem_col df c = Ok col <-> lookup_col c (data df) = Some col.
Proof.
  unfold getitem_col. destruct (lookup_col c (data df)); split; congruence.
Qed.

Lemma series_eq_length (s : Series) (v : scalar) :
  length (series_eq s v) = length s.
Proof. apply length_map. Qed.

(** The filter keeps the columns, and its rows are the rows of the table
    that hold [v] in column [c], in their order, with their labels; their
    number is the number of occurrences of [v] in the column. *)
Lemma filter_by_rows (df : DataFrame) (c : string) (v : scalar) (col : Series) :
  well_formed df ->
  getitem_col df c = Ok col ->
  exists df',
    filter_by df c v = Ok df'
    /\ columns df' = columns df
    /\ rows df' = List.filter (row_has df c v) (rows df)
    /\ length (rows df') = occurrences col v
    /\ well_formed df'.
Proof.
  intros Hwf Hcol.
  pose proof (proj1 (getitem_col_lookup df c col) Hcol) as Hlk.
  pose proof (well_formed_column df c col Hwf Hlk) as Hlen.
  unfold filter_by, getitem_mask. rewrite Hcol, series_eq_length, Hlen, Nat.eqb_refl.
  eexists; split; [reflexivity|].
  assert (Hcols : Forall (fun s : Series => length s = length (index df))
                         (map snd (data df))).
  { apply Forall_map. exact Hwf. }
  repeat split.
  - unfold columns; simpl. rewrite map_map. reflexivity.
  - unfold rows; simpl. rewrite map_map; simpl.
    rewrite <- (map_map snd (take_mask (series_eq col v))).
    rewrite (rows_of_take_mask _ _ _ Hcols).
    unfold series_eq.
    rewrite (take_mask_by_cell (fun r : row => row_cell (columns df) c (snd r))).
    + reflexivity.
    + apply rows_of_column; assumption.
  - rewrite rows_length; simpl. unfold occurrences.
    rewrite (take_mask_length_eq _ (index df) col) by (symmetry; exact Hlen).
    unfold series_eq. rewrite take_mask_map. reflexivity.
  - unfold well_formed; simpl. apply Forall_map.
    eapply Forall_impl; [exact Hwf|]. intros [name s] Hs; simpl in *.
    apply take_mask_length_eq. exact Hs.
Qed.

(** ** Values offered in a dropdown *)

Lemma elem_of_unique_from (x : cell) (s : Series) :
  forall seen, x ∈ unique_from seen s -> x ∈ s.
Proof.
  induction s as [|y s IH]; intros seen; simpl.
  - intros H. exact H.
  - destruct (bool_decide (y ∈ seen)).
    + intros H. right. exact (IH _ H).
    + intros H. apply elem_of_cons in H as [-> | H]; [left | right; exact (IH _ H)].
Qed.

Lemma unique_from_complete (x : cell) (s : Series) :
  forall seen, x ∈ s -> x ∈ seen \/ x ∈ unique_from seen s.
Proof.
  induction s as [|y s IH]; intros seen Hx; simpl.
  - inversion Hx.
  - apply elem_of_cons in Hx as [-> | Hx].
    + destruct (bool_decide (y ∈ seen)) eqn:E.
      * left. apply bool_decide_eq_true in E. exact E.
      * right. left.
    + destruct (bool_decide (y ∈ seen)) eqn:E.
      * exact (IH seen Hx).
      * destruct (IH (y :: seen) Hx) as [H | H].
        -- apply elem_of_cons in H as [-> | H]; [right; left | left; exact H].
        -- right. right. exact H.
Qed.

Lemma unique_from_NoDup (s : Series) :
  forall seen, NoDup (unique_from seen s)
               /\ forall x, x ∈ unique_from seen s -> x ∉ seen.
Proof.
  induction s as [|y s IH]; intros seen; simpl.
  - split; [constructor | intros x H; inversion H].
  - destruct (bool_decide (y ∈ seen)) eqn:E.
    + exact (IH seen).
    + apply bool_decide_eq_false in E.
      destruct (IH (y :: seen)) as [Hnd Hout]. split.
      * constructor; [| exact Hnd].
        intros Hy. apply (Hout y Hy). left.
      * intros x Hx. apply elem_of_cons in Hx as [-> | Hx]; [exact E|].
        intros Hs. apply (Hout x Hx). right. exact Hs.
Qed.

Lemma elem_of_unique (x : cell) (s : Series) : x ∈ unique s <-> x ∈ s.
Proof.
  split; [apply elem_of_unique_from|].
  intros H. destruct (unique_from_complete x s [] H) as [Hn | Hu]; [inversion Hn | exact Hu].
Qed.

Lemma elem_of_dropna (x : cell) (s : Series) : x ∈ dropna s <-> x ∈ s /\ x <> NaN.
Proof.
  unfold dropna. rewrite !list_elem_of_In, filter_In.
  destruct x; simpl; split; intros [H1 H2]; split; auto; congruence.
Qed.

Lemma cell_eqb_refl (x : cell) : x <> NaN -> cell_eqb x x = true.
Proof.
  destruct x; simpl; intros H; [apply String.eqb_refl | apply Z.eqb_refl | congruence].
Qed.

Lemma cell_eqb_eq (x y : cell) : cell_eqb x y = true <-> x = y /\ x <> NaN.
Proof.
  destruct x, y; simpl; try (split; [discriminate | intros [? ?]; congruence]).
  - rewrite String.eqb_eq. split; [intros ->; split; congruence | intros [[= ->] _]; reflexivity].
  - rewrite Z.eqb_eq. split; [intros ->; split; congruence | intros [[= ->] _]; reflexivity].
Qed.

Lemma occurrences_pos (s : Series) (x : cell) :
  x ∈ s -> x <> NaN -> 0 < occurrences s (Some x).
Proof.
  intros Hin Hx. unfold occurrences.
  assert (Hf : In x (List.filter (fun c => py_eq (Some c) (Some x)) s)).
  { apply filter_In. split; [apply list_elem_of_In; exact Hin|].
    simpl. apply cell_eqb_refl. exact Hx. }
  destruct (List.filter _ s); [inversion Hf | simpl; lia].
Qed.

(** ** Running the script monad *)

Lemma bind_bind {A B C : Type} (m : M A) (f : A -> M B) (k : B -> M C) (s : session) :
  bind (bind m f) k s = bind m (fun a => bind (f a) k) s.
Proof. unfold bind. destruct (m s) as [[a|e] s']; reflexivity. Qed.

Lemma bind_Ok {A B : Type} (m : M A) (k : A -> M B) (s s' : session) (a : A) :
  m s = (Ok a, s') -> bind m k s = k a s'.
Proof. intros H. unfold bind. rewrite H. reflexivity. Qed.

Lemma bind_Raise {A B : Type} (m : M A) (k : A -> M B) (s s' : session) (e : exn) :
  m s = (Raise e, s') -> bind m k s = (Raise e, s').
Proof. intros H. unfold bind. rewrite H. reflexivity. Qed.

Lemma bind_ret {A B : Type} (a : A) (k : A -> M B) (s : session) :
  bind (ret a) k s = k a s.
Proof. reflexivity. Qed.

Lemma bind_emit {B : Type} (e : element) (k : unit -> M B) (s : session) :
  bind (emit e) k s = k tt (mkSession (globals s) (page s ++ [e]) (requests s)).
Proof. reflexivity. Qed.

Lemma bind_setvar {B : Type} (name : string) (df : DataFrame) (k : unit -> M B)
    (s : session) :
  bind (setvar name df) k s
  = k tt (mkSession (<[name := df]> (globals s)) (page s) (requests s)).
Proof. reflexivity. Qed.

Lemma bind_getvar {B : Type} (name : string) (df : DataFrame) (k : DataFrame -> M B)
    (s : session) :
  globals s !! name = Some df -> bind (getvar name) k s = k df s.
Proof. intros H. unfold bind, getvar. rewrite H. reflexivity. Qed.

Lemma bind_getvar_unbound {B : Type} (name : string) (k : DataFrame -> M B)
    (s : session) :
  globals s !! name = None -> bind (getvar name) k s = (Raise (NameError name), s).
Proof. intros H. unfold bind, getvar. rewrite H. reflexivity. Qed.

Lemma bind_lift_Ok {A B : Type} (r : result A) (a : A) (k : A -> M B) (s : session) :
  r = Ok a -> bind (lift r) k s = k a s.
Proof. intros ->. reflexivity. Qed.

Lemma bind_lift_Raise {A B : Type} (r : result A) (e : exn) (k : A -> M B)
    (s : session) :
  r = Raise e -> bind (lift r) k s = (Raise e, s).
Proof. intros ->. reflexivity. Qed.

(** One step of a run: the next call of the block is executed. *)
Ltac lookup_var :=
  simpl;
  repeat first [ rewrite lookup_insert_eq
               | rewrite lookup_insert_ne by (congruence || discriminate) ];
  first [ eassumption | reflexivity ].

Ltac run_step :=
  first [ rewrite bind_bind
        | rewrite bind_ret
        | rewrite bind_emit
        | rewrite bind_setvar
        | erewrite bind_getvar by lookup_var
        | erewrite bind_lift_Ok by eassumption ];
  cbv beta; cbn [globals page requests].

Ltac run := repeat run_step.

Lemma first_column_cons (df : DataFrame) (c : string) (col : Series)
    (rest : list (string * Series)) :
  data df = (c, col) :: rest ->
  first_column df = Ok c /\ getitem_col df c = Ok col.
Proof.
  intros H. unfold first_column, getitem_col, columns. rewrite H. simpl.
  rewrite String.eqb_refl. split; reflexivity.
Qed.

Lemma distinct_values_Ok (df : DataFrame) (c : string) (col : Series) :
  getitem_col df c = Ok col -> distinct_values df c = Ok (unique (dropna col)).
Proof. intros H. unfold distinct_values. rewrite H. reflexivity. Qed.

Lemma py_eq_sentinel (v : scalar) :
  py_eq v (Some show_full_table) = true <-> v = Some show_full_table.
Proof.
  destruct v as [x|]; simpl; [| split; discriminate].
  rewrite cell_eqb_eq. split.
  - intros [-> _]. reflexivity.
  - intros [= ->]. split; [reflexivity | discriminate].
Qed.

(** What the filter part of the expenditure and income-tax tabs does on a
    table with at least one column: the selection is the user's pick among
    the extra option and the distinct values of the first column; the table
    shown last is the whole table when the selection equals the extra
    option, and the result of the filter expression otherwise. *)
Lemma category_filter_run (ui : inputs) (t : tab_texts) (var filtered_var : string)
    (s : session) (df : DataFrame) (c : string) (col : Series)
    (rest : list (string * Series)) :
  var <> filtered_var ->
  globals s !! var = Some df ->
  well_formed df ->
  data df = (c, col) :: rest ->
  let options := show_full_table :: unique (dropna col) in
  let selected := pick options (filter_choice ui) in
  exists (s' : session) (shown : DataFrame) (caption : string),
    category_filter ui t var filtered_var s = (Ok selected, s')
    /\ page s' = page s ++ [Subheader (tab_subheader t); Write (columns_caption t);
                             WriteIndex (columns df);
                             Selectbox (select_label t) options;
                             Write caption; DataframeView shown]
    /\ requests s' = requests s
    /\ globals s' !! var = Some df
    /\ (if py_eq selected (Some show_full_table)
        then shown = df /\ globals s' = globals s
        else filter_by df c selected = Ok shown
             /\ globals s' = <[filtered_var := shown]> (globals s)).
Proof.
  intros Hne Hvar Hwf Hdata options selected.
  destruct (first_column_cons df c col rest Hdata) as [Hfirst Hcol].
  pose proof (distinct_values_Ok df c col Hcol) as Hdist.
  unfold category_filter, st_subheader, st_write, st_write_index, st_selectbox,
    st_dataframe.
  run. subst selected options.
  change ([show_full_table] ++ unique (dropna col))
    with (show_full_table :: unique (dropna col)).
  remember (pick (show_full_table :: unique (dropna col)) (filter_choice ui))
    as selected eqn:Hpick.
  destruct (py_eq selected (Some show_full_table)) eqn:Hsel.
  - run. unfold ret.
    eexists _, df, (complete_caption t).
    repeat split; simpl; try assumption.
    rewrite <- !app_assoc. reflexivity.
  - destruct (filter_by_rows df c selected col Hwf Hcol) as (shown & Hf & _).
    run. unfold ret.
    eexists _, shown, _.
    repeat split; simpl.
    + rewrite <- !app_assoc. reflexivity.
    + rewrite lookup_insert_ne by congruence. exact Hvar.
    + exact Hf.
Qed.

(** ** The budget filter *)

Lemma budget_filter_run (ui : inputs) (s : session) (df : DataFrame) (col : Series) :
  globals s !! "budget_data" = Some df ->
  well_formed df ->
  getitem_col df "Source" = Ok col ->
  let options := unique (dropna col) in
  let selected := pick options (filter_choice ui) in
  exists (s' : session) (shown : DataFrame),
    budget_filter ui s = (Ok selected, s')
    /\ page s' = page s ++ [Subheader "📋 Budget Data";
                             Selectbox "Select a Source to View Budget Data" options;
                             DataframeView shown]
    /\ requests s' = requests s
    /\ filter_by df "Source" selected = Ok shown
    /\ globals s' = <["filtered_budget_data" := shown]> (globals s).
Proof.
  intros Hvar Hwf Hcol options selected.
  pose proof (distinct_values_Ok df _ col Hcol) as Hdist.
  destruct (filter_by_rows df "Source" selected col Hwf Hcol) as (shown & Hf & _).
  unfold budget_filter, st_subheader, st_selectbox, st_dataframe.
  subst selected options. run. unfold ret.
  eexists _, shown. repeat split; simpl.
  - rewrite <- !app_assoc. reflexivity.
  - exact Hf.
Qed.

(** ** Charts *)

Lemma make_figure_Ok (k : chart_kind) (df : DataFrame) (a b ttl : string)
    (xs ys : Series) :
  getitem_col df a = Ok xs ->
  getitem_col df b = Ok ys ->
  make_figure k df (Some (Str a)) (Some (Str b)) ttl = Ok (mkFigure k a b xs ys ttl).
Proof.
  intros Ha Hb. apply getitem_col_lookup in Ha, Hb.
  unfold make_figure, axis_column. rewrite Ha, Hb. reflexivity.
Qed.

Lemma combine_by_rows {A : Type} (f g : A -> option cell) :
  forall (rs : list A) (xs ys : Series),
    map f rs = map Some xs ->
    map g rs = map Some ys ->
    map (fun p : cell * cell => (Some (fst p), Some (snd p))) (combine xs ys)
    = map (fun r => (f r, g r)) rs.
Proof.
  induction rs as [|r rs IH]; intros [|x xs] [|y ys] Hf Hg; simpl in *;
    try reflexivity; try discriminate.
  injection Hf as Hx Hxs. injection Hg as Hy Hys.
  rewrite Hx, Hy, (IH xs ys Hxs Hys). reflexivity.
Qed.

(** The points of a trace made of two columns are the pairs of cells that
    the rows hold under the two columns, row by row. *)
Lemma columns_points (df : DataFrame) (a b : string) (xs ys : Series) :
  well_formed df ->
  getitem_col df a = Ok xs ->
  getitem_col df b = Ok ys ->
  map (fun p : cell * cell => (Some (fst p), Some (snd p))) (combine xs ys)
  = map (fun r : row => (row_cell (columns df) a (snd r),
                         row_cell (columns df) b (snd r))) (rows df)
  /\ length (combine xs ys) = length (rows df).
Proof.
  intros Hwf Ha Hb. apply getitem_col_lookup in Ha, Hb.
  pose proof (well_formed_column df a xs Hwf Ha) as Hla.
  pose proof (well_formed_column df b ys Hwf Hb) as Hlb.
  split.
  - apply (combine_by_rows (fun r : row => row_cell (columns df) a (snd r))
                           (fun r : row => row_cell (columns df) b (snd r))).
    + apply rows_of_column; assumption.
    + apply rows_of_column; assumption.
  - rewrite length_combine, rows_length. lia.
Qed.

Lemma pick_elem (options : list cell) (n : nat) (v : cell) :
  pick options n = Some v -> v ∈ options.
Proof.
  unfold pick. destruct (options !! n) as [x|] eqn:E.
  - intros [= ->]. apply list_elem_of_lookup. exists n. exact E.
  - destruct options as [|x options]; simpl; [discriminate|].
    intros [= ->]. left.
Qed.

Lemma pick_nonempty (options : list cell) (n : nat) :
  options <> [] -> exists v, pick options n = Some v.
Proof.
  intros Hne. unfold pick. destruct (options !! n) as [x|]; [eauto|].
  destruct options as [|x options]; [congruence | simpl; eauto].
Qed.

Lemma pick_chart_types (n : nat) :
  exists k : chart_kind, pick chart_types n = Some (chart_label k).
Proof.
  destruct n as [|[|[|n]]]; [exists Bar | exists Line | exists Pie | exists Bar];
    reflexivity.
Qed.

Lemma lookup_col_of_name (c : string) (d : list (string * Series)) :
  c ∈ map fst d -> exists col, lookup_col c d = Some col.
Proof.
  induction d as [|[name col] d IH]; simpl; intros H; [inversion H|].
  destruct (String.eqb name c) eqn:E; [eauto|].
  apply elem_of_cons in H as [-> | H]; [| exact (IH H)].
  rewrite String.eqb_refl in E. discriminate.
Qed.

(** An axis picked among the column names of a table names a column of
    every table with these columns. *)
Lemma pick_axis (df df' : DataFrame) (n : nat) :
  columns df <> [] ->
  columns df' = columns df ->
  exists (a : string) (col : Series),
    pick (map Str (columns df)) n = Some (Str a) /\ getitem_col df' a = Ok col.
Proof.
  intros Hne Hsame.
  destruct (pick_nonempty (map Str (columns df)) n) as [v Hv].
  { destruct (columns df); [congruence | discriminate]. }
  pose proof (pick_elem _ _ _ Hv) as Hin.
  apply list_elem_of_fmap in Hin as (a & -> & Ha).
  rewrite <- Hsame in Ha. destruct (lookup_col_of_name a (data df') Ha) as [col Hcol].
  exists a, col. split; [exact Hv|]. apply getitem_col_lookup. exact Hcol.
Qed.

(** The chart branches on a bound table and two of its columns: the chart
    of the asked kind is drawn, its arrays are the two columns. *)
Lemma chart_section_run (k : chart_kind) (var a b : string) (selected : scalar)
    (s : session) (df : DataFrame) (xs ys : Series) :
  globals s !! var = Some df ->
  getitem_col df a = Ok xs ->
  getitem_col df b = Ok ys ->
  chart_section (Some (chart_label k)) var (Some (Str a)) (Some (Str b)) selected s
  = (Ok tt,
     mkSession (globals s)
               (page s ++ [PlotlyChart (mkFigure k a b xs ys (chart_title k selected))])
               (requests s)).
Proof.
  intros Hvar Ha Hb.
  pose proof (fun k t => make_figure_Ok k df a b t xs ys Ha Hb) as Hfig.
  unfold chart_section, st_plotly_chart, px_bar, px_line, px_pie.
  destruct k; unfold chart_label;
    repeat match goal with
           | |- context [py_eq ?u ?v] =>
               let r := eval vm_compute in (py_eq u v) in
               change (py_eq u v) with r
           end;
    cbv iota;
    (erewrite bind_getvar by lookup_var);
    (erewrite bind_lift_Ok by apply Hfig); reflexivity.
Qed.

(** The chart part of the budget tab on a filtered table with at least
    one column: it never fails, and the chart drawn is made of the two
    picked columns of the filtered table. *)
Lemma budget_visualize_run (ui : inputs) (selected : scalar) (s : session)
    (shown : DataFrame) :
  globals s !! "filtered_budget_data" = Some shown ->
  columns shown <> [] ->
  exists fig : Figure,
    budget_visualize ui selected s
    = (Ok tt,
       mkSession (globals s)
         (page s ++ [Subheader ("📊 Visualize the Budget Data for Source: "
                                 ++ py_str selected)%string;
                     Selectbox "Choose a chart type" chart_types;
                     Selectbox "Select X-axis" (map Str (columns shown));
                     Selectbox "Select Y-axis" (map Str (columns shown));
                     PlotlyChart fig])
         (requests s))
    /\ pick chart_types (chart_choice ui) = Some (chart_label (kind fig))
    /\ pick (map Str (columns shown)) (x_choice ui) = Some (Str (x_label fig))
    /\ pick (map Str (columns shown)) (y_choice ui) = Some (Str (y_label fig))
    /\ getitem_col shown (x_label fig) = Ok (x_data fig)
    /\ getitem_col shown (y_label fig) = Ok (y_data fig).
Proof.
  intros Hvar Hne.
  destruct (pick_chart_types (chart_choice ui)) as [k Hk].
  destruct (pick_axis shown shown (x_choice ui) Hne eq_refl) as (a & xs & Hx & Ha).
  destruct (pick_axis shown shown (y_choice ui) Hne eq_refl) as (b & ys & Hy & Hb).
  exists (mkFigure k a b xs ys (chart_title k selected)).
  split; [| simpl; auto].
  unfold budget_visualize, st_subheader, st_selectbox. run.
  rewrite Hk, Hx, Hy.
  erewrite chart_section_run by (try lookup_var; eassumption).
  simpl. rewrite <- !app_assoc. reflexivity.
Qed.

(** The chart part of the two later tabs: the table plotted is the whole
    table when the selection equals the extra option, the filtered table
    otherwise. *)
Lemma category_visualize_run (ui : inputs) (t : tab_texts) (var filtered_var : string)
    (selected : scalar) (s : session) (df plotted : DataFrame) :
  globals s !! var = Some df ->
  columns df <> [] ->
  (if py_eq selected (Some show_full_table)
   then plotted = df
   else globals s !! filtered_var = Some plotted /\ columns plotted = columns df) ->
  exists fig : Figure,
    category_visualize ui t var filtered_var selected s
    = (Ok tt,
       mkSession (<["data_to_plot" := plotted]> (globals s))
         (page s ++ [Subheader (visualize_prefix t
                                 ++ sentinel_or selected "Complete Data")%string;
                     Selectbox "Choose a chart type" chart_types;
                     Selectbox "Select X-axis" (map Str (columns df));
                     Selectbox "Select Y-axis" (map Str (columns df));
                     PlotlyChart fig])
         (requests s))
    /\ pick chart_types (chart_choice ui) = Some (chart_label (kind fig))
    /\ pick (map Str (columns df)) (x_choice ui) = Some (Str (x_label fig))
    /\ pick (map Str (columns df)) (y_choice ui) = Some (Str (y_label fig))
    /\ getitem_col plotted (x_label fig) = Ok (x_data fig)
    /\ getitem_col plotted (y_label fig) = Ok (y_data fig).
Proof.
  intros Hvar Hne Hplot.
  assert (Hsame : columns plotted = columns df).
  { destruct (py_eq selected (Some show_full_table));
      [subst; reflexivity | exact (proj2 Hplot)]. }
  destruct (pick_chart_types (chart_choice ui)) as [k Hk].
  destruct (pick_axis df plotted (x_choice ui) Hne Hsame) as (a & xs & Hx & Ha).
  destruct (pick_axis df plotted (y_choice ui) Hne Hsame) as (b & ys & Hy & Hb).
  exists (mkFigure k a b xs ys (chart_title k selected)).
  split; [| simpl; auto].
  unfold category_visualize, st_subheader, st_selectbox. run.
  rewrite Hk, Hx, Hy.
  destruct (py_eq selected (Some show_full_table)).
  - subst plotted. run.
    erewrite chart_section_run by (try lookup_var; eassumption).
    simpl. rewrite <- !app_assoc. reflexivity.
  - destruct Hplot as [Hf _]. run.
    erewrite chart_section_run by (try lookup_var; eassumption).
    simpl. rewrite <- !app_assoc. reflexivity.
Qed.

Lemma columns_nonempty (df : DataFrame) (c : string) (col : Series)
    (rest : list (string * Series)) :
  data df = (c, col) :: rest -> columns df <> [].
Proof. unfold columns. intros ->. discriminate. Qed.

Lemma columns_empty (df : DataFrame) : columns df = [] -> data df = [].
Proof. unfold columns. destruct (data df); [reflexivity | discriminate]. Qed.

(** A whole tab of the two later ones on a table with at least one column:
    it runs to its end. *)
Lemma category_tab_runs (ui : inputs) (t : tab_texts) (var filtered_var : string)
    (s : session) (df : DataFrame) :
  var <> filtered_var ->
  globals s !! var = Some df ->
  well_formed df ->
  columns df <> [] ->
  exists s' : session, category_tab ui t var filtered_var s = (Ok tt, s').
Proof.
  intros Hne Hvar Hwf Hcols.
  destruct (data df) as [|[c col] rest] eqn:Hdata.
  { unfold columns in Hcols. rewrite Hdata in Hcols. simpl in Hcols. congruence. }
  destruct (category_filter_run ui t var filtered_var s df c col rest
              Hne Hvar Hwf Hdata)
    as (s1 & shown & caption & Hrun & _ & _ & Hvar1 & Hshown).
  unfold category_tab. rewrite (bind_Ok _ _ _ _ _ Hrun).
  set (selected := pick (show_full_table :: unique (dropna col)) (filter_choice ui)) in *.
  assert (Hplot : if py_eq selected (Some show_full_table)
                  then shown = shown
                  else globals s1 !! filtered_var = Some shown
                       /\ columns shown = columns df).
  { destruct (py_eq selected (Some show_full_table)); [reflexivity|].
    destruct Hshown as [Hf Hg]. split.
    - rewrite Hg. apply lookup_insert_eq.
    - destruct (first_column_cons df c col rest Hdata) as [_ Hcol].
      destruct (filter_by_rows df c selected col Hwf Hcol) as (df' & Hf' & Hc' & _).
      congruence. }
  destruct (py_eq selected (Some show_full_table)) eqn:Hsel.
  - destruct Hshown as [-> _].
    destruct (category_visualize_run ui t var filtered_var selected s1 df df
                Hvar1 Hcols) as (fig & Hv & _).
    { rewrite Hsel. reflexivity. }
    rewrite Hv. eauto.
  - destruct (category_visualize_run ui t var filtered_var selected s1 df shown
                Hvar1 Hcols) as (fig & Hv & _).
    { rewrite Hsel. exact Hplot. }
    rewrite Hv. eauto.
Qed.

(** On a table without columns the same tab stops at the first-column
    access: the caption and the empty list of names are on the page, the
    dropdown is not. *)
Lemma category_tab_no_columns (ui : inputs) (t : tab_texts) (var filtered_var : string)
    (s : session) (df : DataFrame) :
  globals s !! var = Some df ->
  columns df = [] ->
  category_tab ui t var filtered_var s
  = (Raise (IndexError "index 0 is out of bounds for axis 0 with size 0"),
     mkSession (globals s)
               (page s ++ [Subheader (tab_subheader t); Write (columns_caption t);
                           WriteIndex []])
               (requests s)).
Proof.
  intros Hvar Hcols.
  unfold category_tab, category_filter, st_subheader, st_write, st_write_index.
  run. rewrite Hcols.
  assert (Hfirst : first_column df
                   = Raise (IndexError "index 0 is out of bounds for axis 0 with size 0")).
  { unfold first_column. rewrite Hcols. reflexivity. }
  erewrite bind_lift_Raise by exact Hfirst.
  rewrite <- !app_assoc. reflexivity.
Qed.

(** ** Blocks that leave the loaded tables alone *)

Lemma keeps_ret {A : Type} (a : A) : keeps_tables (ret a).
Proof. intros s. reflexivity. Qed.

Lemma keeps_lift {A : Type} (r : result A) : keeps_tables (lift r).
Proof. intros s. reflexivity. Qed.

Lemma keeps_emit (e : element) : keeps_tables (emit e).
Proof. intros s. reflexivity. Qed.

Lemma keeps_getvar (name : string) : keeps_tables (getvar name).
Proof. intros s. unfold getvar. destruct (globals s !! name); reflexivity. Qed.

Lemma keeps_setvar (name : string) (df : DataFrame) :
  name <> "budget_data" -> name <> "expenditure_data" -> name <> "income_tax_data" ->
  keeps_tables (setvar name df).
Proof.
  intros H1 H2 H3 s. unfold loaded_tables, setvar. simpl.
  rewrite !lookup_insert_ne by congruence. reflexivity.
Qed.

Lemma keeps_api (hosted_model : payload -> result (gmap string scalar)) (p : payload) :
  keeps_tables (api hosted_model p).
Proof. intros s. reflexivity. Qed.

Lemma keeps_bind {A B : Type} (m : M A) (k : A -> M B) :
  keeps_tables m -> (forall a, keeps_tables (k a)) -> keeps_tables (bind m k).
Proof.
  intros Hm Hk s. unfold bind. specialize (Hm s).
  destruct (m s) as [[a|e] s1]; simpl in *.
  - rewrite (Hk a s1). exact Hm.
  - exact Hm.
Qed.

Ltac keeps :=
  repeat first
    [ apply keeps_ret
    | apply keeps_lift
    | apply keeps_emit
    | apply keeps_getvar
    | apply keeps_api
    | apply keeps_setvar; discriminate
    | apply keeps_bind; [| intros ]
    | match goal with
      | |- keeps_tables (if ?b then _ else _) => destruct b
      end ].

Lemma keeps_chart_section (chart_type : scalar) (var : string)
    (x_axis y_axis selected : scalar) :
  keeps_tables (chart_section chart_type var x_axis y_axis selected).
Proof. unfold chart_section, st_plotly_chart. keeps. Qed.

Lemma keeps_budget_tab (ui : inputs) : keeps_tables (budget_tab ui).
Proof.
  unfold budget_tab, budget_filter, budget_visualize, st_subheader, st_selectbox,
    st_dataframe.
  keeps. apply keeps_chart_section.
Qed.

Lemma keeps_category_tab (ui : inputs) (t : tab_texts) (var filtered_var : string) :
  filtered_var <> "budget_data" ->
  filtered_var <> "expenditure_data" ->
  filtered_var <> "income_tax_data" ->
  keeps_tables (category_tab ui t var filtered_var).
Proof.
  intros H1 H2 H3.
  unfold category_tab, category_filter, category_visualize, st_subheader, st_write,
    st_write_index, st_selectbox, st_dataframe.
  keeps; try (apply keeps_setvar; assumption). all: apply keeps_chart_section.
Qed.

Lemma keeps_dataset_section (ui : inputs) : keeps_tables (dataset_section ui).
Proof.
  unfold dataset_section, st_selectbox.
  apply keeps_bind; [keeps | intros dataset_type].
  destruct (py_eq dataset_type (Some (Str "Budget Data")));
    [apply keeps_budget_tab|].
  destruct (py_eq dataset_type (Some (Str "Expenditure Data"))).
  { unfold expenditure_tab. apply keeps_category_tab; discriminate. }
  destruct (py_eq dataset_type (Some (Str "Income Tax Data"))).
  { unfold income_tax_tab. apply keeps_category_tab; discriminate. }
  apply keeps_ret.
Qed.

Lemma keeps_question_section
    (hosted_model : payload -> result (gmap string scalar))
    (to_string : DataFrame -> string) (ui : inputs) :
  keeps_tables (question_section hosted_model to_string ui).
Proof.
  unfold question_section, answer_question, query_hf_api, st_markdown, st_subheader,
    st_text_input, st_write.
  keeps.
Qed.

(** ** The loaders *)

Lemma load_budget_data_run (fs : gmap string csv_file) (s : session) :
  load_budget_data fs s
  = (read_csv fs "Combined_Financial_Data.csv" bad_lines_error, s).
Proof.
  unfold load_budget_data, bind, lift, ret.
  destruct (read_csv fs _ _); reflexivity.
Qed.

Lemma load_expenditure_data_run (fs : gmap string csv_file) (s : session) :
  load_expenditure_data fs s = (read_csv fs "Expenditure.csv" bad_lines_error, s).
Proof.
  unfold load_expenditure_data, bind, lift, ret.
  destruct (read_csv fs _ _); reflexivity.
Qed.

Lemma load_income_tax_data_run (fs : gmap string csv_file) (s : session) :
  load_income_tax_data fs s
  = match read_csv fs "Income Tax.csv" bad_lines_skip with
    | Ok df => (Ok df, s)
    | Raise e =>
        (Ok empty_DataFrame,
         mkSession (globals s)
                   (page s ++ [ErrorBox ("Error loading Income Tax Data: "
                                          ++ exn_str e)%string])
                   (requests s))
    end.
Proof.
  unfold load_income_tax_data, try_except, bind, lift, ret, st_error, emit.
  destruct (read_csv fs _ _); reflexivity.
Qed.

Lemma range_index_length (n : nat) : length (range_index n) = n.
Proof. unfold range_index. rewrite length_map, length_seq. reflexivity. Qed.

Lemma imap_Forall {A B : Type} (P : B -> Prop) (f : nat -> A -> B) (l : list A) :
  (forall i x, P (f i x)) -> Forall P (imap f l).
Proof.
  revert f. induction l as [|x l IH]; intros f H; simpl; constructor.
  - apply H.
  - apply IH. intros i y. apply H.
Qed.

Lemma infer_column_length (fields : list string) :
  length (infer_column fields) = length fields.
Proof.
  unfold infer_column. destruct (forallb numeric_field fields); apply length_map.
Qed.

Lemma imap_names {B : Type} (header : list string) :
  forall g : nat -> B,
    map fst (imap (fun (j : nat) (name : string) => (name, g j)) header) = header.
Proof.
  induction header as [|h header IH]; intros g; simpl; [reflexivity|].
  f_equal. apply (IH (fun j => g (S j))).
Qed.

(** A table read from a file is well formed, has one row per record kept,
    and the header as its column names. *)
Lemma frame_of_records_shape (header : list string) (kept : list (list string)) :
  well_formed (frame_of_records header kept)
  /\ length (rows (frame_of_records header kept)) = length kept
  /\ columns (frame_of_records header kept) = header.
Proof.
  split; [| split].
  - unfold well_formed, frame_of_records; simpl.
    apply imap_Forall. intros i name. simpl.
    rewrite infer_column_length, length_map, range_index_length. reflexivity.
  - rewrite rows_length. unfold frame_of_records; simpl. apply range_index_length.
  - unfold columns, frame_of_records; simpl.
    apply (imap_names header
             (fun j => infer_column (map (fun r : list string => nth j r ""%string) kept))).
Qed.

Lemma read_csv_well_formed (fs : gmap string csv_file) (path : string)
    (policy : bad_lines) (df : DataFrame) :
  read_csv fs path policy = Ok df -> well_formed df.
Proof.
  unfold read_csv. destruct (fs !! path) as [[|header records]|]; try discriminate.
  destruct (parse_lines policy (length header) 2 records); [| discriminate].
  intros [= <-]. apply frame_of_records_shape.
Qed.

Lemma empty_DataFrame_well_formed : well_formed empty_DataFrame.
Proof. constructor. Qed.

(** The tables bound by the loading lines are well formed: what is proved
    of well-formed tables holds of every table the script works on. *)
Lemma load_data_binds_well_formed (fs : gmap string csv_file) (s s' : session) :
  load_data fs s = (Ok tt, s') ->
  exists b e i : DataFrame,
    globals s' !! "budget_data" = Some b
    /\ globals s' !! "expenditure_data" = Some e
    /\ globals s' !! "income_tax_data" = Some i
    /\ well_formed b /\ well_formed e /\ well_formed i.
Proof.
  unfold load_data.
  destruct (read_csv fs "Combined_Financial_Data.csv" bad_lines_error)
    as [b|err] eqn:Hb.
  2:{ erewrite bind_Raise by (rewrite load_budget_data_run, Hb; reflexivity).
      discriminate. }
  erewrite bind_Ok by (rewrite load_budget_data_run, Hb; reflexivity). run.
  destruct (read_csv fs "Expenditure.csv" bad_lines_error) as [e|err] eqn:He.
  2:{ erewrite bind_Raise by (rewrite load_expenditure_data_run, He; reflexivity).
      discriminate. }
  erewrite bind_Ok by (rewrite load_expenditure_data_run, He; reflexivity). run.
  pose proof (load_income_tax_data_run fs) as Hload.
  destruct (read_csv fs "Income Tax.csv" bad_lines_skip) as [i|err] eqn:Hi.
  - erewrite bind_Ok by apply Hload. unfold setvar. intros [= <-]. simpl.
    exists b, e, i. repeat split; try lookup_var;
      eapply read_csv_well_formed; eassumption.
  - erewrite bind_Ok by apply Hload. unfold setvar. intros [= <-]. simpl.
    exists b, e, empty_DataFrame. repeat split; try lookup_var;
      first [ eapply read_csv_well_formed; eassumption
            | apply empty_DataFrame_well_formed ].
Qed.

(** ** Reading a page *)

Lemma shown_tables_app (p q : list element) :
  shown_tables (p ++ q) = shown_tables p ++ shown_tables q.
Proof.
  induction p as [|e p IH]; simpl; [reflexivity|].
  destruct e; simpl; rewrite IH; reflexivity.
Qed.

Lemma shown_charts_app (p q : list element) :
  shown_charts (p ++ q) = shown_charts p ++ shown_charts q.
Proof.
  induction p as [|e p IH]; simpl; [reflexivity|].
  destruct e; simpl; rewrite IH; reflexivity.
Qed.

Lemma dropdowns_app (p q : list element) :
  dropdowns (p ++ q) = dropdowns p ++ dropdowns q.
Proof.
  induction p as [|e p IH]; simpl; [reflexivity|].
  destruct e; simpl; rewrite IH; reflexivity.
Qed.

Lemma error_boxes_app (p q : list element) :
  error_boxes (p ++ q) = error_boxes p ++ error_boxes q.
Proof.
  induction p as [|e p IH]; simpl; [reflexivity|].
  destruct e; simpl; rewrite IH; reflexivity.
Qed.

Lemma sample_expenditure_well_formed : well_formed sample_expenditure.
Proof. unfold well_formed. simpl. repeat constructor. Qed.

Lemma sample_budget_well_formed : well_formed sample_budget.
Proof. unfold well_formed. simpl. repeat constructor. Qed.

Lemma sample_income_tax_well_formed : well_formed sample_income_tax.
Proof. unfold well_formed. simpl. repeat constructor. Qed.

(** ** The filter (claim C1) *)

(** C1, as stated, fails in the expenditure tab.  In the sample table the
    text "Show Full Table" is the value of the first column in exactly one
    of the two rows, so the dropdown lists it twice: as the extra option and
    as a value.  The user picks the value (position 1); the tab shows the
    whole table, two rows, and not the one row that holds the value. *)
Lemma selected_value_equal_to_sentinel_shows_whole_table :
  let ui := mkInputs 1 1 0 0 1 "" in
  let s := session_with sample_budget sample_clash sample_income_tax in
  let s' := snd (category_filter ui expenditure_texts "expenditure_data"
                                 "filtered_expenditure_data" s) in
  dropdowns (page s')
  = [("Select an Item Group (State/Region) to View Expenditure Data",
      [Str "Show Full Table"; Str "Show Full Table"; Str "Goa"])]
  /\ occurrences [Str "Show Full Table"; Str "Goa"] (Some (Str "Show Full Table")) = 1
  /\ List.filter (row_has sample_clash "State" (Some (Str "Show Full Table")))
                 (rows sample_clash)
     = [(0%Z, [Str "Show Full Table"; Num 1])]
  /\ shown_tables (page s') = [sample_clash]
  /\ rows sample_clash
     = [(0%Z, [Str "Show Full Table"; Num 1]); (1%Z, [Str "Goa"; Num 2])].
Proof. vm_compute. repeat split; reflexivity. Qed.

(** C1, amended.  For every well-formed table, every column [C] of it and
    every value [v], the filter expression [df[df[C] == v]] returns exactly
    the rows that hold [v] in column [C]: same labels and cells, same
    order, duplicates kept, as many rows as [v] has occurrences in the
    column.  In the expenditure and income-tax tabs the table shown for a
    selection other than the text "Show Full Table" is the result of that
    expression on the first column; for a selection equal to
    "Show Full Table" it is the whole table. *)
Theorem filter_returns_rows_of_selected_value
    (ui : inputs) (t : tab_texts) (var filtered_var : string) (s : session)
    (df : DataFrame) (c : string) (col : Series) (rest : list (string * Series)) :
  var <> filtered_var ->
  globals s !! var = Some df ->
  well_formed df ->
  data df = (c, col) :: rest ->
  (forall (C : string) (colC : Series) (v : scalar),
      getitem_col df C = Ok colC ->
      exists shown : DataFrame,
        filter_by df C v = Ok shown
        /\ columns shown = columns df
        /\ rows shown = List.filter (row_has df C v) (rows df)
        /\ length (rows shown) = occurrences colC v)
  /\ exists (s' : session) (shown : DataFrame),
       category_filter ui t var filtered_var s
       = (Ok (pick (show_full_table :: unique (dropna col)) (filter_choice ui)), s')
       /\ shown_tables (page s') = shown_tables (page s) ++ [shown]
       /\ (pick (show_full_table :: unique (dropna col)) (filter_choice ui)
           = Some show_full_table -> shown = df)
       /\ (pick (show_full_table :: unique (dropna col)) (filter_choice ui)
           <> Some show_full_table ->
           columns shown = columns df
           /\ rows shown
              = List.filter
                  (row_has df c (pick (show_full_table :: unique (dropna col))
                                      (filter_choice ui)))
                  (rows df)
           /\ length (rows shown)
              = occurrences col (pick (show_full_table :: unique (dropna col))
                                      (filter_choice ui))).
Proof.
  intros Hne Hvar Hwf Hdata. split.
  - intros C colC v HC.
    destruct (filter_by_rows df C v colC Hwf HC) as (shown & H1 & H2 & H3 & H4 & _).
    exists shown. auto.
  - destruct (category_filter_run ui t var filtered_var s df c col rest
                Hne Hvar Hwf Hdata)
      as (s' & shown & caption & Hrun & Hpage & _ & _ & Hshown).
    exists s', shown. split; [exact Hrun|]. split.
    { rewrite Hpage, shown_tables_app. reflexivity. }
    remember (pick (show_full_table :: unique (dropna col)) (filter_choice ui))
      as selected eqn:Hsel.
    destruct (py_eq selected (Some show_full_table)) eqn:Heq.
    + apply py_eq_sentinel in Heq. split; [intros _; exact (proj1 Hshown)|].
      intros Hn. congruence.
    + split.
      { intros Hs. apply py_eq_sentinel in Hs. congruence. }
      intros _. destruct Hshown as [Hf _].
      destruct (first_column_cons df c col rest Hdata) as [_ Hcol].
      destruct (filter_by_rows df c selected col Hwf Hcol)
        as (shown' & H1 & H2 & H3 & H4 & _).
      assert (shown' = shown) as -> by congruence. auto.
Qed.

(** The expenditure tab of the sample session, the user picking "Goa". *)
Lemma filter_returns_rows_of_selected_value_witness :
  (exists shown : DataFrame,
      filter_by sample_expenditure "Spend" (Some (Num 7)) = Ok shown
      /\ rows shown = [(1%Z, [Str "Kerala"; Num 7])])
  /\ exists (s' : session) (shown : DataFrame),
       category_filter sample_inputs expenditure_texts "expenditure_data"
                       "filtered_expenditure_data" sample_session
       = (Ok (Some (Str "Goa")), s')
       /\ shown_tables (page s') = [shown]
       /\ rows shown = [(0%Z, [Str "Goa"; Num 5]); (2%Z, [Str "Goa"; Num 9])]
       /\ length (rows shown) = 2.
Proof.
  destruct (filter_returns_rows_of_selected_value
              sample_inputs expenditure_texts "expenditure_data"
              "filtered_expenditure_data" sample_session sample_expenditure
              "State" [Str "Goa"; Str "Kerala"; Str "Goa"]
              [("Spend", [Num 5; Num 7; Num 9])])
    as [Hexpr (s' & shown & Hrun & Hpage & _ & Hrows)].
  - discriminate.
  - reflexivity.
  - exact sample_expenditure_well_formed.
  - reflexivity.
  - split.
    + destruct (Hexpr "Spend" [Num 5; Num 7; Num 9] (Some (Num 7)) eq_refl)
        as (shown0 & H1 & _ & H3 & _).
      exists shown0. split; [exact H1 | exact H3].
    + exists s', shown. split; [exact Hrun|]. split; [exact Hpage|].
      destruct Hrows as (_ & H2 & H3); [discriminate|].
      split; [exact H2 | exact H3].
Defined.

(** ** The values offered in the dropdowns (claim C5) *)

(** C5.  The values offered by a dropdown are the distinct values of the
    filter column that are not missing: the column "Source" in the budget
    tab (line 60), the first column in the two later tabs, where the text
    "Show Full Table" is added in front (lines 91-92 and 134-135).  Every
    offered value occurs in the column, and the filter on it returns at
    least one row. *)
Theorem offered_values_occur_in_table
    (df : DataFrame) (c : string) (options : list cell) :
  well_formed df ->
  distinct_values df c = Ok options ->
  (forall v : cell,
      v ∈ options ->
      exists (col : Series) (shown : DataFrame),
        getitem_col df c = Ok col /\ v ∈ col
        /\ filter_by df c (Some v) = Ok shown
        /\ 0 < length (rows shown))
  /\ (forall v : cell,
      v ∈ [show_full_table] ++ options ->
      v <> show_full_table ->
      exists (col : Series) (shown : DataFrame),
        getitem_col df c = Ok col /\ v ∈ col
        /\ filter_by df c (Some v) = Ok shown
        /\ 0 < length (rows shown)).
Proof.
  intros Hwf Hopts.
  assert (Hin : forall v : cell,
             v ∈ options ->
             exists (col : Series) (shown : DataFrame),
               getitem_col df c = Ok col /\ v ∈ col
               /\ filter_by df c (Some v) = Ok shown
               /\ 0 < length (rows shown)).
  { intros v Hv. unfold distinct_values in Hopts.
    destruct (getitem_col df c) as [col|e] eqn:Hcol; [| discriminate].
    injection Hopts as <-.
    apply elem_of_unique, elem_of_dropna in Hv as [Hv Hnan].
    destruct (filter_by_rows df c (Some v) col Hwf Hcol)
      as (shown & Hf & _ & _ & Hlen & _).
    exists col, shown. repeat split; try assumption.
    rewrite Hlen. apply occurrences_pos; assumption. }
  split; [exact Hin|].
  intros v Hv Hne. apply Hin.
  apply elem_of_app in Hv as [Hv | Hv]; [| exact Hv].
  apply list_elem_of_singleton in Hv. congruence.
Qed.

(** The sources of the sample budget table. *)
Lemma offered_values_occur_in_table_witness :
  distinct_values sample_budget "Source" = Ok [Str "A"; Str "B"]
  /\ exists (col : Series) (shown : DataFrame),
       getitem_col sample_budget "Source" = Ok col /\ Str "B" ∈ col
       /\ filter_by sample_budget "Source" (Some (Str "B")) = Ok shown
       /\ 0 < length (rows shown).
Proof.
  split; [reflexivity|].
  destruct (offered_values_occur_in_table sample_budget "Source" [Str "A"; Str "B"]
              sample_budget_well_formed eq_refl) as [H _].
  apply (H (Str "B")). right. left.
Defined.

(** ** The extra option of the dropdown (claim C6) *)

(** C6, as stated, fails in the budget tab.  Its dropdown offers the
    sources of the table and nothing else; the text "Show Full Table" is not
    among them, and the filter of the tab applied to that text returns no
    row of the three. *)
Lemma budget_tab_has_no_full_table_option :
  let s' := snd (budget_filter sample_inputs sample_session) in
  dropdowns (page s')
  = [("Select a Source to View Budget Data", [Str "A"; Str "B"])]
  /\ bool_decide (show_full_table ∈ [Str "A"; Str "B"]) = false
  /\ (exists shown : DataFrame,
         filter_by sample_budget "Source" (Some show_full_table) = Ok shown
         /\ rows shown = [])
  /\ length (rows sample_budget) = 3.
Proof.
  vm_compute. repeat split; try reflexivity.
  eexists. split; reflexivity.
Qed.

(** C6, amended.  In the expenditure and income-tax tabs the dropdown
    offers the text "Show Full Table" in front of the distinct values of the
    first column, and the tab shows the whole table when the selection
    equals it.  The dropdown of the budget tab offers the distinct sources
    only, and the tab shows the rows of the selected source. *)
Theorem full_table_option_of_category_tabs
    (ui : inputs) (t : tab_texts) (var filtered_var : string) (s : session)
    (df : DataFrame) (c : string) (col : Series) (rest : list (string * Series))
    (budget : DataFrame) (sources : Series) :
  var <> filtered_var ->
  globals s !! var = Some df ->
  well_formed df ->
  data df = (c, col) :: rest ->
  globals s !! "budget_data" = Some budget ->
  well_formed budget ->
  getitem_col budget "Source" = Ok sources ->
  (exists (s' : session) (shown : DataFrame),
      category_filter ui t var filtered_var s
      = (Ok (pick (show_full_table :: unique (dropna col)) (filter_choice ui)), s')
      /\ dropdowns (page s')
         = dropdowns (page s)
           ++ [(select_label t, show_full_table :: unique (dropna col))]
      /\ shown_tables (page s') = shown_tables (page s) ++ [shown]
      /\ (pick (show_full_table :: unique (dropna col)) (filter_choice ui)
          = Some show_full_table -> shown = df))
  /\ (exists (s' : session) (shown : DataFrame),
      budget_filter ui s = (Ok (pick (unique (dropna sources)) (filter_choice ui)), s')
      /\ dropdowns (page s')
         = dropdowns (page s)
           ++ [("Select a Source to View Budget Data", unique (dropna sources))]
      /\ shown_tables (page s') = shown_tables (page s) ++ [shown]
      /\ rows shown
         = List.filter
             (row_has budget "Source" (pick (unique (dropna sources)) (filter_choice ui)))
             (rows budget)).
Proof.
  intros Hne Hvar Hwf Hdata Hb Hwfb Hsrc. split.
  - destruct (category_filter_run ui t var filtered_var s df c col rest
                Hne Hvar Hwf Hdata)
      as (s' & shown & caption & Hrun & Hpage & _ & _ & Hshown).
    exists s', shown. split; [exact Hrun|].
    rewrite Hpage, dropdowns_app, shown_tables_app. repeat split.
    intros Hsel. rewrite Hsel in Hshown. exact (proj1 Hshown).
  - destruct (budget_filter_run ui s budget sources Hb Hwfb Hsrc)
      as (s' & shown & Hrun & Hpage & _ & Hf & _).
    exists s', shown. split; [exact Hrun|].
    rewrite Hpage, dropdowns_app, shown_tables_app. repeat split.
    destruct (filter_by_rows budget "Source"
                (pick (unique (dropna sources)) (filter_choice ui)) sources Hwfb Hsrc)
      as (shown' & H1 & _ & H3 & _).
    assert (shown' = shown) as -> by congruence. exact H3.
Qed.

(** The sample session: the extra option is picked in the expenditure tab
    (position 0), the source "A" in the budget tab. *)
Lemma full_table_option_of_category_tabs_witness :
  (exists (s' : session) (shown : DataFrame),
      category_filter (mkInputs 1 0 0 0 1 "") expenditure_texts "expenditure_data"
                      "filtered_expenditure_data" sample_session
      = (Ok (Some show_full_table), s')
      /\ dropdowns (page s')
         = [("Select an Item Group (State/Region) to View Expenditure Data",
             [Str "Show Full Table"; Str "Goa"; Str "Kerala"])]
      /\ shown_tables (page s') = [shown]
      /\ shown = sample_expenditure)
  /\ (exists (s' : session) (shown : DataFrame),
      budget_filter (mkInputs 1 0 0 0 1 "") sample_session = (Ok (Some (Str "A")), s')
      /\ dropdowns (page s')
         = [("Select a Source to View Budget Data", [Str "A"; Str "B"])]
      /\ shown_tables (page s') = [shown]
      /\ rows shown = [(0%Z, [Str "A"; Num 2020; Num 10]);
                       (2%Z, [Str "A"; Num 2021; Num 30])]).
Proof.
  destruct (full_table_option_of_category_tabs
              (mkInputs 1 0 0 0 1 "") expenditure_texts "expenditure_data"
              "filtered_expenditure_data" sample_session sample_expenditure
              "State" [Str "Goa"; Str "Kerala"; Str "Goa"]
              [("Spend", [Num 5; Num 7; Num 9])]
              sample_budget [Str "A"; Str "B"; Str "A"])
    as [(s1 & shown1 & Hrun1 & Hd1 & Ht1 & Hall)
        (s2 & shown2 & Hrun2 & Hd2 & Ht2 & Hrows)].
  - discriminate.
  - reflexivity.
  - exact sample_expenditure_well_formed.
  - reflexivity.
  - reflexivity.
  - exact sample_budget_well_formed.
  - reflexivity.
  - split.
    + exists s1, shown1. repeat split; try assumption. apply Hall. reflexivity.
    + exists s2, shown2. repeat split; assumption.
Defined.

(** ** The chart builder (claim C4) *)

(** C4.  For every well-formed table bound to the plotted variable, every
    two columns [a] and [b] of it (in particular a categorical [a] and a
    numeric [b]) and each of the three chart kinds, the chart branch
    succeeds and draws one chart of that kind.  The data series of the
    chart has one point per row of the table, in row order: the point of a
    row is the pair of its cells under [a] and [b].  Rows with the same
    value under [a] stay separate points, in a pie as in the other kinds. *)
Theorem chart_series_match_rows
    (k : chart_kind) (var a b : string) (selected : scalar) (s : session)
    (df : DataFrame) (xs ys : Series) :
  globals s !! var = Some df ->
  well_formed df ->
  getitem_col df a = Ok xs ->
  getitem_col df b = Ok ys ->
  exists fig : Figure,
    chart_section (Some (chart_label k)) var (Some (Str a)) (Some (Str b)) selected s
    = (Ok tt, mkSession (globals s) (page s ++ [PlotlyChart fig]) (requests s))
    /\ kind fig = k
    /\ x_label fig = a
    /\ y_label fig = b
    /\ length (series_points fig) = length (rows df)
    /\ map (fun p : cell * cell => (Some (fst p), Some (snd p))) (series_points fig)
       = map (fun r : row => (row_cell (columns df) a (snd r),
                              row_cell (columns df) b (snd r)))
             (rows df).
Proof.
  intros Hvar Hwf Ha Hb.
  exists (mkFigure k a b xs ys (chart_title k selected)).
  split; [apply (chart_section_run k var a b selected s df xs ys Hvar Ha Hb)|].
  destruct (columns_points df a b xs ys Hwf Ha Hb) as [Hpts Hlen].
  unfold series_points; simpl. auto.
Qed.

(** A pie chart of the sample expenditure table, in which "Goa" labels two
    rows: the series keeps both. *)
Lemma chart_series_match_rows_witness :
  exists fig : Figure,
    chart_section (Some (Str "Pie Chart")) "expenditure_data"
                  (Some (Str "State")) (Some (Str "Spend")) (Some (Str "Goa"))
                  sample_session
    = (Ok tt,
       mkSession (globals sample_session) [PlotlyChart fig] [])
    /\ kind fig = Pie
    /\ series_points fig
       = [(Str "Goa", Num 5); (Str "Kerala", Num 7); (Str "Goa", Num 9)]
    /\ length (series_points fig) = length (rows sample_expenditure).
Proof.
  destruct (chart_series_match_rows Pie "expenditure_data" "State" "Spend"
              (Some (Str "Goa")) sample_session sample_expenditure
              [Str "Goa"; Str "Kerala"; Str "Goa"] [Num 5; Num 7; Num 9]
              eq_refl sample_expenditure_well_formed eq_refl eq_refl)
    as (fig & Hrun & Hk & _ & _ & Hlen & Hpts).
  exists fig. split; [exact Hrun|]. split; [exact Hk|]. split; [| exact Hlen].
  destruct (series_points fig) as [|[x1 y1] [|[x2 y2] [|[x3 y3] [|p l]]]];
    try discriminate Hlen.
  injection Hpts as -> -> -> -> -> ->. reflexivity.
Defined.

(** ** The inference bridge (claim C2) *)

(** C2.  For every question and context the bridge sends one request with
    both to the hosted model and writes nothing on the page.  It returns
    the [answer] field of the response when the response has one, the text
    "No answer found." when it has none, and it raises the error of the call
    when the call fails. *)
Theorem query_hf_api_answer_or_fallback
    (hosted_model : payload -> result (gmap string scalar))
    (q ctx : string) (s : session) :
  snd (query_hf_api hosted_model q ctx s)
  = mkSession (globals s) (page s) (requests s ++ [mkPayload q ctx])
  /\ (forall (response : gmap string scalar) (answer : scalar),
        hosted_model (mkPayload q ctx) = Ok response ->
        response !! "answer" = Some answer ->
        fst (query_hf_api hosted_model q ctx s) = Ok answer)
  /\ (forall response : gmap string scalar,
        hosted_model (mkPayload q ctx) = Ok response ->
        response !! "answer" = None ->
        fst (query_hf_api hosted_model q ctx s) = Ok (Some (Str "No answer found.")))
  /\ (forall e : exn,
        hosted_model (mkPayload q ctx) = Raise e ->
        fst (query_hf_api hosted_model q ctx s) = Raise e).
Proof.
  unfold query_hf_api, bind, api, ret.
  destruct (hosted_model (mkPayload q ctx)) as [response|e] eqn:Hcall; simpl.
  - split; [reflexivity|]. split; [| split].
    + intros r a [= <-] Ha. rewrite Ha. reflexivity.
    + intros r [= <-] Ha. rewrite Ha. reflexivity.
    + intros e0 H. discriminate H.
  - split; [reflexivity|]. split; [| split].
    + intros r a H. discriminate H.
    + intros r H. discriminate H.
    + intros e0 [= <-]. reflexivity.
Qed.

(** The three stubs of the hosted model. *)
Lemma query_hf_api_answer_or_fallback_witness :
  fst (query_hf_api model_answers_42 "What?" "ctx" fresh_session)
  = Ok (Some (Str "42"))
  /\ fst (query_hf_api model_without_answer "What?" "ctx" fresh_session)
     = Ok (Some (Str "No answer found."))
  /\ fst (query_hf_api model_unreachable "What?" "ctx" fresh_session)
     = Raise (HTTPError "503 Server Error: Service Unavailable").
Proof.
  split; [| split].
  - destruct (query_hf_api_answer_or_fallback model_answers_42 "What?" "ctx"
                fresh_session) as (_ & H & _ & _).
    apply (H {[ "answer" := Some (Str "42") ]}); reflexivity.
  - destruct (query_hf_api_answer_or_fallback model_without_answer "What?" "ctx"
                fresh_session) as (_ & _ & H & _).
    apply (H {[ "error" := Some (Str "Model is loading") ]}); reflexivity.
  - destruct (query_hf_api_answer_or_fallback model_unreachable "What?" "ctx"
                fresh_session) as (_ & _ & _ & H).
    apply H. reflexivity.
Defined.

(** ** The income-tax loader (claim C3) *)




(** The sample file has a record with three fields under a header of two:
    the loader returns the two other rows. *)
Example income_tax_loader_skips_bad_line :
  load_income_tax_data sample_fs fresh_session = (Ok sample_income_tax, fresh_session).
Proof. vm_compute. reflexivity. Qed.

(** Without the file: an error box and the empty table. *)
Example income_tax_loader_without_file :
  load_income_tax_data ∅ fresh_session
  = (Ok empty_DataFrame,
     mkSession ∅
       [ErrorBox "Error loading Income Tax Data: [Errno 2] No such file or directory: 'Income Tax.csv'"]
       []).
Proof. vm_compute. reflexivity. Qed.

(** ** The budget and expenditure loaders (claim C7) *)

(** C7.  The budget loader and the expenditure loader have no handler: when
    the reading of their file raises, the loader raises the same exception
    and returns no table, the loading lines 42-44 raise it, and the run of
    the script ends with it. *)
Theorem budget_and_expenditure_loaders_propagate
    (hosted_model : payload -> result (gmap string scalar))
    (to_string : DataFrame -> string) (fs : gmap string csv_file) (ui : inputs)
    (s : session) (e : exn) :
  (read_csv fs "Combined_Financial_Data.csv" bad_lines_error = Raise e ->
   load_budget_data fs s = (Raise e, s)
   /\ load_data fs s = (Raise e, s)
   /\ fst (app hosted_model to_string fs ui s) = Raise e)
  /\ (read_csv fs "Expenditure.csv" bad_lines_error = Raise e ->
      load_expenditure_data fs s = (Raise e, s)
      /\ forall budget : DataFrame,
           read_csv fs "Combined_Financial_Data.csv" bad_lines_error = Ok budget ->
           fst (load_data fs s) = Raise e
           /\ fst (app hosted_model to_string fs ui s) = Raise e).
Proof.
  split.
  - intros Hb.
    assert (Hload : forall s0, load_budget_data fs s0 = (Raise e, s0)).
    { intros s0. rewrite load_budget_data_run, Hb. reflexivity. }
    split; [apply Hload|]. split.
    + unfold load_data. apply bind_Raise. apply Hload.
    + unfold app, st_set_page_config, load_data. run.
      erewrite bind_Raise; [reflexivity | apply Hload].
  - intros He.
    assert (Hload : forall s0, load_expenditure_data fs s0 = (Raise e, s0)).
    { intros s0. rewrite load_expenditure_data_run, He. reflexivity. }
    split; [apply Hload|]. intros budget Hb.
    assert (Hloadb : forall s0, load_budget_data fs s0 = (Ok budget, s0)).
    { intros s0. rewrite load_budget_data_run, Hb. reflexivity. }
    split.
    + unfold load_data. rewrite (bind_Ok _ _ _ _ _ (Hloadb s)). run.
      erewrite bind_Raise; [reflexivity | apply Hload].
    + unfold app, st_set_page_config, load_data. run.
      rewrite (bind_Ok _ _ _ _ _ (Hloadb _)). run.
      erewrite bind_Raise; [reflexivity | apply Hload].
Qed.

(** A bad line in the budget file, and a bad line in the expenditure file
    beside a sound budget file. *)
Lemma budget_and_expenditure_loaders_propagate_witness :
  (load_budget_data sample_bad_fs fresh_session
   = (Raise (ParserError 3 2 3), fresh_session)
   /\ fst (app model_answers_42 plain_to_string sample_bad_fs sample_inputs
               fresh_session)
      = Raise (ParserError 3 2 3))
  /\ (load_expenditure_data
        (<["Combined_Financial_Data.csv" := sample_budget_csv]> sample_bad_fs)
        fresh_session
      = (Raise (ParserError 3 2 3), fresh_session)
      /\ fst (app model_answers_42 plain_to_string
                  (<["Combined_Financial_Data.csv" := sample_budget_csv]> sample_bad_fs)
                  sample_inputs fresh_session)
         = Raise (ParserError 3 2 3)).
Proof.
  split.
  - destruct (budget_and_expenditure_loaders_propagate
                model_answers_42 plain_to_string sample_bad_fs sample_inputs
                fresh_session (ParserError 3 2 3)) as [H _].
    destruct (H eq_refl) as (H1 & _ & H3). split; assumption.
  - destruct (budget_and_expenditure_loaders_propagate
                model_answers_42 plain_to_string
                (<["Combined_Financial_Data.csv" := sample_budget_csv]> sample_bad_fs)
                sample_inputs fresh_session (ParserError 3 2 3)) as [_ H].
    destruct (H eq_refl) as (H1 & H2).
    destruct (H2 sample_budget eq_refl) as (_ & H3). split; assumption.
Defined.

(** ** The question (claim C8) *)

Lemma lookup_col_named (f : string -> Series) (c : string) (names : list string) :
  c ∈ names -> lookup_col c (map (fun n => (n, f n)) names) = Some (f c).
Proof.
  induction names as [|n names IH]; simpl; intros H; [inversion H|].
  destruct (String.eqb n c) eqn:E.
  - apply String.eqb_eq in E as ->. reflexivity.
  - apply elem_of_cons in H as [-> | H]; [| exact (IH H)].
    rewrite String.eqb_refl in E. discriminate.
Qed.

Lemma concat_columns (frames : list DataFrame) :
  columns (concat_ignore_index frames)
  = distinct_names [] (flat_map columns frames).
Proof.
  unfold columns, concat_ignore_index; simpl. rewrite map_map; simpl.
  apply map_id.
Qed.

(** The concatenated table holds, under each of its columns, the cells of
    the first table, then those of the second, then those of the third;
    a table without the column stands with missing values. *)
Lemma concat_three (b e i : DataFrame) :
  (forall c : string,
      c ∈ columns (concat_ignore_index [b; e; i]) ->
      getitem_col (concat_ignore_index [b; e; i]) c
      = Ok (column_or_missing c b ++ column_or_missing c e ++ column_or_missing c i))
  /\ length (rows (concat_ignore_index [b; e; i]))
     = length (rows b) + length (rows e) + length (rows i).
Proof.
  split.
  - intros c Hc. rewrite concat_columns in Hc.
    unfold getitem_col, concat_ignore_index. cbv zeta. cbn [data].
    rewrite (lookup_col_named
               (fun n => flat_map (column_or_missing n) [b; e; i]) c _ Hc).
    simpl. rewrite app_nil_r. reflexivity.
  - rewrite !rows_length. unfold concat_ignore_index; simpl.
    rewrite range_index_length, app_nil_r, !length_app. lia.
Qed.

(** C8.  Whenever the user has typed a question, one request is sent to
    the hosted model: its question is the typed text and its context is the
    text of the table made of the budget table, then the expenditure table,
    then the income-tax table.  The answer returned by the bridge is what
    the page shows, after the words "**Answer:** ". *)
Theorem question_context_is_all_tables
    (hosted_model : payload -> result (gmap string scalar))
    (to_string : DataFrame -> string) (ui : inputs) (s : session)
    (b e i : DataFrame) :
  globals s !! "budget_data" = Some b ->
  globals s !! "expenditure_data" = Some e ->
  globals s !! "income_tax_data" = Some i ->
  typed_question ui <> ""%string ->
  requests (snd (question_section hosted_model to_string ui s))
  = requests s ++ [mkPayload (typed_question ui)
                             (to_string (concat_ignore_index [b; e; i]))]
  /\ (forall c : string,
        c ∈ columns (concat_ignore_index [b; e; i]) ->
        getitem_col (concat_ignore_index [b; e; i]) c
        = Ok (column_or_missing c b ++ column_or_missing c e
              ++ column_or_missing c i))
  /\ (forall response : gmap string scalar,
        hosted_model (mkPayload (typed_question ui)
                                (to_string (concat_ignore_index [b; e; i])))
        = Ok response ->
        fst (question_section hosted_model to_string ui s) = Ok tt
        /\ page (snd (question_section hosted_model to_string ui s))
           = page s
             ++ [Markdown "---"; Subheader "🤔 Ask Questions about the Data";
                 TextInput "Enter your question about the data:";
                 Write ("**Answer:** "
                        ++ py_str (default (Some (Str "No answer found."))
                                           (response !! "answer")))%string])
  /\ (forall err : exn,
        hosted_model (mkPayload (typed_question ui)
                                (to_string (concat_ignore_index [b; e; i])))
        = Raise err ->
        fst (question_section hosted_model to_string ui s) = Raise err).
Proof.
  intros Hb He Hi Hq.
  apply String.eqb_neq in Hq.
  assert (Hrun : question_section hosted_model to_string ui s
                 = match hosted_model
                           (mkPayload (typed_question ui)
                                      (to_string (concat_ignore_index [b; e; i]))) with
                   | Ok response =>
                       (Ok tt,
                        mkSession
                          (<["all_data" := concat_ignore_index [b; e; i]]> (globals s))
                          (page s
                           ++ [Markdown "---"; Subheader "🤔 Ask Questions about the Data";
                               TextInput "Enter your question about the data:";
                               Write ("**Answer:** "
                                      ++ py_str (default (Some (Str "No answer found."))
                                                         (response !! "answer")))%string])
                          (requests s
                           ++ [mkPayload (typed_question ui)
                                         (to_string (concat_ignore_index [b; e; i]))]))
                   | Raise err =>
                       (Raise err,
                        mkSession
                          (<["all_data" := concat_ignore_index [b; e; i]]> (globals s))
                          (page s
                           ++ [Markdown "---"; Subheader "🤔 Ask Questions about the Data";
                               TextInput "Enter your question about the data:"])
                          (requests s
                           ++ [mkPayload (typed_question ui)
                                         (to_string (concat_ignore_index [b; e; i]))]))
                   end).
  { unfold question_section, st_markdown, st_subheader, st_text_input. run.
    rewrite Hq. cbn [negb].
    unfold answer_question. run.
    unfold query_hf_api, st_write. rewrite bind_bind.
    unfold bind at 1. unfold api. cbn [globals page requests].
    destruct (hosted_model _) as [response|err].
    - run. unfold emit. cbn [globals page requests].
      rewrite <- !app_assoc. reflexivity.
    - rewrite <- !app_assoc. reflexivity. }
  rewrite Hrun. split; [| split; [| split]].
  - destruct (hosted_model _); reflexivity.
  - apply concat_three.
  - intros response ->. split; reflexivity.
  - intros err ->. reflexivity.
Qed.

(** The sample session and the stub that answers 42. *)
Lemma question_context_is_all_tables_witness :
  requests (snd (question_section model_answers_42 plain_to_string sample_inputs
                                  sample_session))
  = [mkPayload "What is the rate?" "Source Year Amount State Spend Bracket Rate"]
  /\ getitem_col
       (concat_ignore_index [sample_budget; sample_expenditure; sample_income_tax])
       "State"
     = Ok [NaN; NaN; NaN; Str "Goa"; Str "Kerala"; Str "Goa"; NaN; NaN]
  /\ page (snd (question_section model_answers_42 plain_to_string sample_inputs
                                 sample_session))
     = [Markdown "---"; Subheader "🤔 Ask Questions about the Data";
        TextInput "Enter your question about the data:";
        Write "**Answer:** 42"].
Proof.
  destruct (question_context_is_all_tables
              model_answers_42 plain_to_string sample_inputs sample_session
              sample_budget sample_expenditure sample_income_tax
              eq_refl eq_refl eq_refl)
    as (Hreq & Hcols & Hans & _).
  - discriminate.
  - split; [exact Hreq|]. split.
    + apply (Hcols "State"). vm_compute. right. right. right. left.
    + destruct (Hans {[ "answer" := Some (Str "42") ]} eq_refl) as [_ Hpage].
      exact Hpage.
Defined.

(** ** The loaded tables stay as they are (claim C9) *)

(** C9.  The filter and chart blocks of the three tabs, the dataset section
    that selects among them and the question section leave the three loaded
    tables bound as they were, whatever the user picks and whether the
    block ends or raises: a filtered table is a new table bound to another
    name. *)
Theorem loaded_tables_are_not_modified
    (hosted_model : payload -> result (gmap string scalar))
    (to_string : DataFrame -> string) (ui : inputs) :
  keeps_tables (budget_filter ui)
  /\ (forall selected : scalar, keeps_tables (budget_visualize ui selected))
  /\ keeps_tables (expenditure_tab ui)
  /\ keeps_tables (income_tax_tab ui)
  /\ (forall (chart_type x_axis y_axis selected : scalar) (var : string),
        keeps_tables (chart_section chart_type var x_axis y_axis selected))
  /\ keeps_tables (dataset_section ui;;
                   question_section hosted_model to_string ui)%script.
Proof.
  split; [| split; [| split; [| split; [| split]]]].
  - unfold budget_filter, st_subheader, st_selectbox, st_dataframe. keeps.
  - intros selected. unfold budget_visualize, st_subheader, st_selectbox.
    keeps. apply keeps_chart_section.
  - unfold expenditure_tab. apply keeps_category_tab; discriminate.
  - unfold income_tax_tab. apply keeps_category_tab; discriminate.
  - intros. apply keeps_chart_section.
  - apply keeps_bind; [apply keeps_dataset_section | intros _].
    apply keeps_question_section.
Qed.

(** A whole pass over the sample session: the filtered table and the
    plotted table are new bindings, the three loaded tables are the same. *)
Example sample_run_keeps_tables :
  let s' := snd ((dataset_section sample_inputs;;
                  question_section model_answers_42 plain_to_string sample_inputs)%script
                   sample_session) in
  loaded_tables s' = (Some sample_budget, Some sample_expenditure, Some sample_income_tax)
  /\ rows <$> (globals s' !! "filtered_expenditure_data")
     = Some [(0%Z, [Str "Goa"; Num 5]); (2%Z, [Str "Goa"; Num 9])].
Proof. vm_compute. split; reflexivity. Qed.

(** ** The income-tax tab on the empty table (claim C10) *)

(** C10.  When the reading of the income-tax file fails, the loader returns
    the empty table, and the income-tax tab run on it raises [IndexError] at
    the access to the first column name (line 134): the empty table has no
    column.  In general the tab raises that error exactly when its table
    has no column, and the first column name can be read exactly when the
    table has at least one column. *)
Theorem income_tax_tab_fails_on_empty_table
    (fs : gmap string csv_file) (ui : inputs) (s : session) (e : exn) :
  read_csv fs "Income Tax.csv" bad_lines_skip = Raise e ->
  fst (load_income_tax_data fs s) = Ok empty_DataFrame
  /\ fst ((income_tax_data <- load_income_tax_data fs;;
           setvar "income_tax_data" income_tax_data;;
           income_tax_tab ui)%script s)
     = Raise (IndexError "index 0 is out of bounds for axis 0 with size 0")
  /\ (forall (df : DataFrame) (s0 : session),
        globals s0 !! "income_tax_data" = Some df ->
        well_formed df ->
        (fst (income_tax_tab ui s0)
         = Raise (IndexError "index 0 is out of bounds for axis 0 with size 0")
         <-> columns df = []))
  /\ (forall df : DataFrame,
        (exists c : string, first_column df = Ok c) <-> columns df <> []).
Proof.
  intros Hread.
  pose proof (load_income_tax_data_run fs s) as Hload. rewrite Hread in Hload.
  split; [rewrite Hload; reflexivity|]. split; [| split].
  - rewrite (bind_Ok _ _ _ _ _ Hload). run.
    unfold income_tax_tab.
    erewrite category_tab_no_columns; [reflexivity | lookup_var | reflexivity].
  - intros df s0 Hvar Hwf. unfold income_tax_tab. split.
    + intros Hraise.
      destruct (columns df) as [|c cs] eqn:Hcols; [reflexivity|].
      destruct (category_tab_runs ui income_tax_texts "income_tax_data"
                  "filtered_income_tax_data" s0 df) as [s1 Hrun];
        try assumption; try discriminate.
      * rewrite Hcols. discriminate.
      * rewrite Hrun in Hraise. discriminate.
    + intros Hcols.
      rewrite (category_tab_no_columns ui income_tax_texts "income_tax_data"
                 "filtered_income_tax_data" s0 df Hvar Hcols).
      reflexivity.
  - intros df. unfold first_column. destruct (columns df) as [|c cs]; split.
    + intros [c H]. discriminate.
    + intros H. congruence.
    + intros _. discriminate.
    + intros _. eauto.
Qed.

(** A disk without the income-tax file. *)
Lemma income_tax_tab_fails_on_empty_table_witness :
  read_csv ∅ "Income Tax.csv" bad_lines_skip
  = Raise (FileNotFoundError "Income Tax.csv")
  /\ fst (load_income_tax_data ∅ fresh_session) = Ok empty_DataFrame
  /\ fst ((income_tax_data <- load_income_tax_data ∅;;
           setvar "income_tax_data" income_tax_data;;
           income_tax_tab sample_inputs)%script fresh_session)
     = Raise (IndexError "index 0 is out of bounds for axis 0 with size 0").
Proof.
  assert (Hread : read_csv ∅ "Income Tax.csv" bad_lines_skip
                  = Raise (FileNotFoundError "Income Tax.csv")) by reflexivity.
  split; [exact Hread|].
  destruct (income_tax_tab_fails_on_empty_table
              ∅ sample_inputs fresh_session (FileNotFoundError "Income Tax.csv")
              Hread) as (H1 & H2 & _).
  split; assumption.
Defined.

(** The whole script on a disk with the two other files only, the user
    opening the income-tax tab: the error box of the loader is on the page,
    and the run ends with the [IndexError]. *)
Example app_without_income_tax_file :
  let fs : gmap string csv_file :=
    {[ "Combined_Financial_Data.csv" := sample_budget_csv;
       "Expenditure.csv" := sample_expenditure_csv ]} in
  let run := app model_answers_42 plain_to_string fs (mkInputs 2 0 0 0 1 "")
                 fresh_session in
  fst run = Raise (IndexError "index 0 is out of bounds for axis 0 with size 0")
  /\ error_boxes (page (snd run))
     = ["Error loading Income Tax Data: [Errno 2] No such file or directory: 'Income Tax.csv'"]
  /\ dropdowns (page (snd run)) = [("Select Dataset Type", dataset_types)].
Proof. vm_compute. repeat split; reflexivity. Qed.

(** The whole script on the sample disk: the expenditure tab filtered on
    "Goa", a pie chart of it, and the question answered. *)
Example app_on_sample_disk :
  let run := app model_answers_42 plain_to_string sample_fs sample_inputs
                 fresh_session in
  fst run = Ok tt
  /\ map rows (shown_tables (page (snd run)))
     = [[(0%Z, [Str "Goa"; Num 5]); (2%Z, [Str "Goa"; Num 9])]]
  /\ map series_points (shown_charts (page (snd run)))
     = [[(Str "Goa", Num 5); (Str "Goa", Num 9)]]
  /\ map question (requests (snd run)) = ["What is the rate?"%string]
  /\ loaded_tables (snd run)
     = (Some sample_budget, Some sample_expenditure, Some sample_income_tax).
Proof. vm_compute. repeat split; reflexivity. Qed.

(** * Further properties of the script *)

(** ** The budget tab as a whole *)

Lemma getitem_col_in_columns (df : DataFrame) (c : string) (col : Series) :
  getitem_col df c = Ok col -> c ∈ columns df.
Proof.
  intros H. apply getitem_col_lookup, lookup_col_elem in H.
  unfold columns. apply list_elem_of_fmap. exists (c, col). split; [reflexivity | exact H].
Qed.

Lemma getitem_col_missing (df : DataFrame) (c : string) :
  lookup_col c (data df) = None -> getitem_col df c = Raise (KeyError c).
Proof. intros H. unfold getitem_col. rewrite H. reflexivity. Qed.

(** X1.  A budget table without a column named "Source" stops the budget
    tab at line 60 with [KeyError]: the heading of the tab is on the page,
    no dropdown, no table and no chart. *)
Theorem budget_tab_needs_source_column (ui : inputs) (s : session) (df : DataFrame) :
  globals s !! "budget_data" = Some df ->
  lookup_col "Source" (data df) = None ->
  budget_tab ui s
  = (Raise (KeyError "Source"),
     mkSession (globals s) (page s ++ [Subheader "📋 Budget Data"]) (requests s)).
Proof.
  intros Hvar Hnone.
  unfold budget_tab, budget_filter, st_subheader. run.
  assert (Hd : distinct_values df "Source" = Raise (KeyError "Source")).
  { unfold distinct_values. rewrite (getitem_col_missing df _ Hnone). reflexivity. }
  erewrite bind_lift_Raise by exact Hd. reflexivity.
Qed.

(** The expenditure table in the place of the budget table. *)
Lemma budget_tab_needs_source_column_witness :
  budget_tab sample_inputs
    (session_with sample_expenditure sample_expenditure sample_income_tax)
  = (Raise (KeyError "Source"),
     mkSession
       (globals (session_with sample_expenditure sample_expenditure sample_income_tax))
       [Subheader "📋 Budget Data"] []).
Proof.
  apply (budget_tab_needs_source_column sample_inputs
           (session_with sample_expenditure sample_expenditure sample_income_tax)
           sample_expenditure); reflexivity.
Defined.

(** X2.  Whenever the budget tab runs to its end on a well-formed budget
    table with a column "Source", it has shown one table, the rows of the
    selected source, and drawn one chart; the two arrays of the chart are
    columns of the table shown (not of the whole budget table), one point
    per row shown. *)
Theorem budget_tab_charts_the_table_shown
    (ui : inputs) (s : session) (df : DataFrame) (col : Series) :
  globals s !! "budget_data" = Some df ->
  well_formed df ->
  getitem_col df "Source" = Ok col ->
  fst (budget_tab ui s) = Ok tt ->
  exists (shown : DataFrame) (fig : Figure),
    filter_by df "Source" (pick (unique (dropna col)) (filter_choice ui)) = Ok shown
    /\ shown_tables (page (snd (budget_tab ui s))) = shown_tables (page s) ++ [shown]
    /\ shown_charts (page (snd (budget_tab ui s))) = shown_charts (page s) ++ [fig]
    /\ getitem_col shown (x_label fig) = Ok (x_data fig)
    /\ getitem_col shown (y_label fig) = Ok (y_data fig)
    /\ length (series_points fig) = length (rows shown).
Proof.
  intros Hvar Hwf Hcol _.
  destruct (budget_filter_run ui s df col Hvar Hwf Hcol)
    as (s1 & shown & Hrun & Hpage & _ & Hf & Hglob).
  destruct (filter_by_rows df "Source" (pick (unique (dropna col)) (filter_choice ui))
              col Hwf Hcol) as (shown' & Hf' & Hcols & _ & _ & Hwf').
  assert (shown' = shown) as -> by congruence.
  assert (Hne : columns shown <> []).
  { rewrite Hcols. pose proof (getitem_col_in_columns df _ col Hcol) as Hin.
    intros Hnil. rewrite Hnil in Hin. inversion Hin. }
  assert (Hvar1 : globals s1 !! "filtered_budget_data" = Some shown).
  { rewrite Hglob. apply lookup_insert_eq. }
  destruct (budget_visualize_run ui (pick (unique (dropna col)) (filter_choice ui))
              s1 shown Hvar1 Hne) as (fig & Hvis & _ & _ & _ & Hx & Hy).
  unfold budget_tab. rewrite (bind_Ok _ _ _ _ _ Hrun), Hvis.
  exists shown, fig. split; [exact Hf|].
  cbn [snd page]. rewrite Hpage, !shown_tables_app, !shown_charts_app. simpl.
  rewrite !app_nil_r.
  split; [reflexivity|]. split; [reflexivity|]. split; [exact Hx|]. split; [exact Hy|].
  apply (columns_points shown _ _ _ _ Hwf' Hx Hy).
Qed.

(** The budget tab of the sample session, the user picking source "B". *)
Lemma budget_tab_charts_the_table_shown_witness :
  fst (budget_tab sample_inputs sample_session) = Ok tt
  /\ exists (shown : DataFrame) (fig : Figure),
       filter_by sample_budget "Source" (Some (Str "B")) = Ok shown
       /\ shown_tables (page (snd (budget_tab sample_inputs sample_session))) = [shown]
       /\ shown_charts (page (snd (budget_tab sample_inputs sample_session))) = [fig]
       /\ length (series_points fig) = length (rows shown).
Proof.
  assert (Hrun : fst (budget_tab sample_inputs sample_session) = Ok tt)
    by (vm_compute; reflexivity).
  split; [exact Hrun|].
  destruct (budget_tab_charts_the_table_shown sample_inputs sample_session
              sample_budget [Str "A"; Str "B"; Str "A"]
              eq_refl sample_budget_well_formed eq_refl Hrun)
    as (shown & fig & H2 & H3 & H4 & _ & _ & H7).
  exists shown, fig. repeat split; assumption.
Defined.

(** X3.  A budget table in which no source is present (no row, or only
    missing values under "Source") gives an empty dropdown: the selection
    is [None], the table shown has the columns of the budget table and no
    row. *)
Theorem budget_tab_without_sources
    (ui : inputs) (s : session) (df : DataFrame) (col : Series) :
  globals s !! "budget_data" = Some df ->
  well_formed df ->
  getitem_col df "Source" = Ok col ->
  dropna col = [] ->
  exists (s' : session) (shown : DataFrame),
    budget_filter ui s = (Ok None, s')
    /\ dropdowns (page s')
       = dropdowns (page s) ++ [("Select a Source to View Budget Data", [])]
    /\ shown_tables (page s') = shown_tables (page s) ++ [shown]
    /\ columns shown = columns df
    /\ rows shown = [].
Proof.
  intros Hvar Hwf Hcol Hnone.
  destruct (budget_filter_run ui s df col Hvar Hwf Hcol)
    as (s1 & shown & Hrun & Hpage & _ & Hf & _).
  rewrite Hnone in Hrun, Hpage, Hf.
  change (pick (unique []) (filter_choice ui)) with (@None cell) in *.
  change (unique []) with (@nil cell) in *.
  destruct (filter_by_rows df "Source" None col Hwf Hcol)
    as (shown' & Hf' & Hcols & Hrows & _).
  assert (shown' = shown) as -> by congruence.
  exists s1, shown. split; [exact Hrun|].
  rewrite Hpage, dropdowns_app, shown_tables_app. simpl.
  split; [reflexivity|]. split; [reflexivity|]. split; [exact Hcols|].
  rewrite Hrows. clear. induction (rows df) as [|r rs IH]; simpl; [reflexivity|].
  unfold row_has at 1. destruct (row_cell (columns df) "Source" (snd r)); exact IH.
Qed.

(** A budget file with a header and no record. *)
Lemma budget_tab_without_sources_witness :
  exists (s' : session) (shown : DataFrame),
    budget_filter sample_inputs
      (session_with (frame_of_records ["Source"; "Amount"] [])
                    sample_expenditure sample_income_tax)
    = (Ok None, s')
    /\ shown_tables (page s') = [shown]
    /\ columns shown = ["Source"; "Amount"]%string
    /\ rows shown = [].
Proof.
  destruct (budget_tab_without_sources sample_inputs
              (session_with (frame_of_records ["Source"; "Amount"] [])
                            sample_expenditure sample_income_tax)
              (frame_of_records ["Source"; "Amount"] []) [] eq_refl)
    as (s' & shown & H1 & _ & H3 & H4 & H5).
  - apply frame_of_records_shape.
  - reflexivity.
  - reflexivity.
  - exists s', shown. repeat split; assumption.
Defined.

(** ** The two later tabs as a whole *)

(** X4.  Whenever the expenditure tab or the income-tax tab runs to its
    end on a well-formed table with at least one column, the chart is made
    of the table that is shown: the whole table when the selection equals
    "Show Full Table", the filtered table otherwise (lines 111-114 follow
    lines 96-102), while the two axes are picked among the column names of
    the whole table.  The series has one point per row shown. *)
Theorem category_tab_charts_the_table_shown
    (ui : inputs) (t : tab_texts) (var filtered_var : string) (s : session)
    (df : DataFrame) :
  var <> filtered_var ->
  globals s !! var = Some df ->
  well_formed df ->
  columns df <> [] ->
  fst (category_tab ui t var filtered_var s) = Ok tt ->
  exists (shown : DataFrame) (fig : Figure),
    shown_tables (page (snd (category_tab ui t var filtered_var s)))
    = shown_tables (page s) ++ [shown]
    /\ shown_charts (page (snd (category_tab ui t var filtered_var s)))
       = shown_charts (page s) ++ [fig]
    /\ globals (snd (category_tab ui t var filtered_var s)) !! "data_to_plot"
       = Some shown
    /\ pick (map Str (columns df)) (x_choice ui) = Some (Str (x_label fig))
    /\ pick (map Str (columns df)) (y_choice ui) = Some (Str (y_label fig))
    /\ getitem_col shown (x_label fig) = Ok (x_data fig)
    /\ getitem_col shown (y_label fig) = Ok (y_data fig)
    /\ length (series_points fig) = length (rows shown).
Proof.
  intros Hne Hvar Hwf Hcols _.
  destruct (data df) as [|[c col] rest] eqn:Hdata.
  { unfold columns in Hcols. rewrite Hdata in Hcols. simpl in Hcols. congruence. }
  destruct (category_filter_run ui t var filtered_var s df c col rest
              Hne Hvar Hwf Hdata)
    as (s1 & shown & caption & Hrun & Hpage & _ & Hvar1 & Hshown).
  destruct (first_column_cons df c col rest Hdata) as [_ Hcol].
  remember (pick (show_full_table :: unique (dropna col)) (filter_choice ui))
    as selected eqn:Hsel.
  assert (Hplot : (if py_eq selected (Some show_full_table)
                   then shown = df
                   else globals s1 !! filtered_var = Some shown
                        /\ columns shown = columns df)
                  /\ well_formed shown).
  { destruct (py_eq selected (Some show_full_table)).
    - destruct Hshown as [-> _]. split; [reflexivity | exact Hwf].
    - destruct Hshown as [Hf Hg].
      destruct (filter_by_rows df c selected col Hwf Hcol)
        as (df' & Hf' & Hc' & _ & _ & Hwf').
      assert (df' = shown) as -> by congruence.
      split; [| exact Hwf']. split; [| exact Hc'].
      rewrite Hg. apply lookup_insert_eq. }
  destruct Hplot as [Hplot Hwfs].
  destruct (category_visualize_run ui t var filtered_var selected s1 df shown
              Hvar1 Hcols Hplot) as (fig & Hvis & _ & Hx & Hy & Hxs & Hys).
  unfold category_tab. rewrite (bind_Ok _ _ _ _ _ Hrun), Hvis.
  exists shown, fig.
  cbn [snd page globals]. rewrite Hpage, !shown_tables_app, !shown_charts_app. simpl.
  rewrite !app_nil_r.
  split; [reflexivity|]. split; [reflexivity|].
  split; [apply lookup_insert_eq|].
  split; [exact Hx|]. split; [exact Hy|]. split; [exact Hxs|]. split; [exact Hys|].
  apply (columns_points shown _ _ _ _ Hwfs Hxs Hys).
Qed.

(** The expenditure tab of the sample session filtered on "Goa": the pie
    has the two rows of "Goa" and not the three rows of the table. *)
Lemma category_tab_charts_the_table_shown_witness :
  fst (expenditure_tab sample_inputs sample_session) = Ok tt
  /\ exists (shown : DataFrame) (fig : Figure),
       shown_tables (page (snd (expenditure_tab sample_inputs sample_session)))
       = [shown]
       /\ shown_charts (page (snd (expenditure_tab sample_inputs sample_session)))
          = [fig]
       /\ globals (snd (expenditure_tab sample_inputs sample_session)) !! "data_to_plot"
          = Some shown
       /\ length (series_points fig) = length (rows shown).
Proof.
  assert (Hrun : fst (expenditure_tab sample_inputs sample_session) = Ok tt)
    by (vm_compute; reflexivity).
  split; [exact Hrun|].
  destruct (category_tab_charts_the_table_shown
              sample_inputs expenditure_texts "expenditure_data"
              "filtered_expenditure_data" sample_session sample_expenditure)
    as (shown & fig & H2 & H3 & H4 & _ & _ & _ & _ & H9).
  - discriminate.
  - reflexivity.
  - exact sample_expenditure_well_formed.
  - discriminate.
  - exact Hrun.
  - exists shown, fig. repeat split; assumption.
Defined.

(** ** The options of a dropdown *)

Lemma unique_from_sublist (s : Series) :
  forall seen, sublist (unique_from seen s) s.
Proof.
  induction s as [|x s IH]; intros seen; simpl; [constructor|].
  destruct (bool_decide (x ∈ seen)).
  - apply sublist_cons, IH.
  - apply sublist_skip, IH.
Qed.

Lemma dropna_sublist (s : Series) : sublist (dropna s) s.
Proof.
  unfold dropna. induction s as [|x s IH]; simpl; [constructor|].
  destruct (negb (isna x)); [apply sublist_skip | apply sublist_cons]; exact IH.
Qed.

(** The order of the options: an option that stands before another one
    occurs in the column before every occurrence of that other one. *)
Lemma unique_from_dropna_order (col : Series) :
  forall (seen : list cell) (i j : nat) (x y : cell),
    unique_from seen (dropna col) !! i = Some x ->
    unique_from seen (dropna col) !! j = Some y ->
    i < j ->
    exists a : nat,
      col !! a = Some x /\ forall b : nat, col !! b = Some y -> a < b.
Proof.
  induction col as [|z col IH]; intros seen i j x y Hx Hy Hij.
  - simpl in Hx. rewrite lookup_nil in Hx. discriminate.
  - assert (Hstep : forall seen',
               unique_from seen' (dropna col) !! i = Some x ->
               unique_from seen' (dropna col) !! j = Some y ->
               (z = y -> y ∈ unique_from seen' (dropna col) -> False) ->
               exists a : nat,
                 (z :: col) !! a = Some x
                 /\ forall b : nat, (z :: col) !! b = Some y -> a < b).
    { intros seen' Hx' Hy' Hz.
      destruct (IH seen' i j x y Hx' Hy' Hij) as (a & Ha & Hb).
      exists (S a). split; [exact Ha|].
      intros [|b] Hlk; simpl in Hlk.
      - exfalso. injection Hlk as Hzy. apply (Hz Hzy).
        apply list_elem_of_lookup. exists j. exact Hy'.
      - specialize (Hb b Hlk). lia. }
    unfold dropna in *. simpl in Hx, Hy.
    destruct (negb (isna z)) eqn:Hna; simpl in Hx, Hy.
    + destruct (bool_decide (z ∈ seen)) eqn:Hseen.
      * apply bool_decide_eq_true in Hseen.
        apply (Hstep seen Hx Hy). intros -> Hin.
        apply (proj2 (unique_from_NoDup _ seen) y Hin Hseen).
      * destruct i as [|i]; destruct j as [|j]; try lia; simpl in Hx, Hy.
        -- injection Hx as ->. exists 0. split; [reflexivity|].
           intros [|b] Hlk; [| lia]. simpl in Hlk. injection Hlk as ->.
           exfalso.
           assert (Hin : y ∈ unique_from (y :: seen)
                             (List.filter (fun c => negb (isna c)) col))
             by (apply list_elem_of_lookup; exists j; exact Hy).
           apply (proj2 (unique_from_NoDup _ (y :: seen)) y Hin). left.
        -- destruct (IH (z :: seen) i j x y Hx Hy ltac:(lia)) as (a & Ha & Hb).
           exists (S a). split; [exact Ha|].
           intros [|b] Hlk; simpl in Hlk.
           ++ exfalso. injection Hlk as ->.
              assert (Hin : y ∈ unique_from (y :: seen)
                                (List.filter (fun c => negb (isna c)) col))
                by (apply list_elem_of_lookup; exists j; exact Hy).
              apply (proj2 (unique_from_NoDup _ (y :: seen)) y Hin). left.
           ++ specialize (Hb b Hlk). lia.
    + apply (Hstep seen Hx Hy). intros -> Hin.
      apply elem_of_unique_from in Hin.
      apply (elem_of_dropna y col) in Hin as [_ Hnan].
      destruct y; simpl in Hna; try discriminate. congruence.
Qed.

(** X5.  The values a dropdown offers for a column are the values of the
    column that are not missing, each once, in the order in which the
    column shows them first: an option that stands before another one
    occurs in the column before every occurrence of that other one. *)
Theorem dropdown_options_are_the_distinct_values
    (df : DataFrame) (c : string) (col : Series) (options : list cell) :
  getitem_col df c = Ok col ->
  distinct_values df c = Ok options ->
  NoDup options
  /\ sublist options col
  /\ (forall v : cell, v ∈ options <-> v ∈ col /\ v <> NaN)
  /\ (forall (i j : nat) (x y : cell),
        options !! i = Some x ->
        options !! j = Some y ->
        i < j ->
        exists a : nat,
          col !! a = Some x /\ forall b : nat, col !! b = Some y -> a < b).
Proof.
  intros Hcol Hopts. unfold distinct_values in Hopts. rewrite Hcol in Hopts.
  injection Hopts as <-. split; [| split; [| split]].
  - apply (unique_from_NoDup (dropna col) []).
  - transitivity (dropna col); [apply unique_from_sublist | apply dropna_sublist].
  - intros v. rewrite elem_of_unique. apply elem_of_dropna.
  - intros i j x y. apply (unique_from_dropna_order col []).
Qed.

(** A column with a repeated value and a missing one: "Goa" is offered
    before "Kerala" although its last occurrence comes after. *)
Lemma dropdown_options_are_the_distinct_values_witness :
  distinct_values
    (mkDataFrame [0; 1; 2; 3]%Z [("State", [Str "Goa"; NaN; Str "Kerala"; Str "Goa"])])
    "State"
  = Ok [Str "Goa"; Str "Kerala"]
  /\ NoDup [Str "Goa"; Str "Kerala"]
  /\ sublist [Str "Goa"; Str "Kerala"] [Str "Goa"; NaN; Str "Kerala"; Str "Goa"]
  /\ exists a : nat,
       [Str "Goa"; NaN; Str "Kerala"; Str "Goa"] !! a = Some (Str "Goa")
       /\ forall b : nat,
            [Str "Goa"; NaN; Str "Kerala"; Str "Goa"] !! b = Some (Str "Kerala") ->
            a < b.
Proof.
  split; [reflexivity|].
  destruct (dropdown_options_are_the_distinct_values
              (mkDataFrame [0; 1; 2; 3]%Z
                 [("State", [Str "Goa"; NaN; Str "Kerala"; Str "Goa"])])
              "State" [Str "Goa"; NaN; Str "Kerala"; Str "Goa"]
              [Str "Goa"; Str "Kerala"] eq_refl eq_refl) as (H1 & H2 & _ & H4).
  split; [exact H1|]. split; [exact H2|].
  apply (H4 0 1 (Str "Goa") (Str "Kerala")); [reflexivity | reflexivity | lia].
Defined.

(** ** Which rows a filter can show *)

Lemma py_eq_Some (x : cell) (v : scalar) :
  py_eq (Some x) v = true <-> v = Some x /\ x <> NaN.
Proof.
  destruct v as [y|]; simpl.
  - rewrite cell_eqb_eq. split.
    + intros [-> H]. split; [reflexivity | exact H].
    + intros [[= ->] H]. split; [reflexivity | exact H].
  - split; [discriminate | intros [H _]; discriminate].
Qed.

(** X6.  Every row of a well-formed table has a cell under the filter
    column.  When that cell is missing, the row is in the result of the
    filter for no selection at all: in the budget tab, which has no option
    for the whole table, such a row is never shown.  When the cell is a
    value, that value is offered by the dropdown and the row is in the
    result of the filter for this selection and for no other. *)
Theorem rows_reached_by_the_filter
    (df : DataFrame) (c : string) (col : Series) (r : row) :
  well_formed df ->
  getitem_col df c = Ok col ->
  r ∈ rows df ->
  exists x : cell,
    row_cell (columns df) c (snd r) = Some x
    /\ (x = NaN ->
        forall (v : scalar) (shown : DataFrame),
          filter_by df c v = Ok shown -> r ∉ rows shown)
    /\ (x <> NaN ->
        x ∈ unique (dropna col)
        /\ forall (v : scalar) (shown : DataFrame),
             filter_by df c v = Ok shown -> (r ∈ rows shown <-> v = Some x)).
Proof.
  intros Hwf Hcol Hr.
  pose proof (proj1 (getitem_col_lookup df c col) Hcol) as Hlk.
  pose proof (rows_of_column c (index df) (data df) col Hlk
                (well_formed_column df c col Hwf Hlk)) as Hcells.
  fold (columns df) in Hcells. fold (rows df) in Hcells.
  assert (Hx : exists x, row_cell (columns df) c (snd r) = Some x /\ x ∈ col).
  { assert (Hin : row_cell (columns df) c (snd r)
                  ∈ map (fun r0 : row => row_cell (columns df) c (snd r0)) (rows df)).
    { apply list_elem_of_fmap. exists r. split; [reflexivity | exact Hr]. }
    rewrite Hcells in Hin. apply list_elem_of_fmap in Hin as (x & Hx & Hin).
    exists x. split; assumption. }
  destruct Hx as (x & Hx & Hin). exists x. split; [exact Hx|].
  assert (Hmem : forall (v : scalar) (shown : DataFrame),
             filter_by df c v = Ok shown ->
             (r ∈ rows shown <-> v = Some x /\ x <> NaN)).
  { intros v shown Hf.
    destruct (filter_by_rows df c v col Hwf Hcol) as (shown' & Hf' & _ & Hrows & _).
    assert (shown' = shown) as -> by congruence.
    rewrite Hrows, list_elem_of_In, filter_In, <- list_elem_of_In.
    unfold row_has. rewrite Hx, py_eq_Some. tauto. }
  split.
  - intros -> v shown Hf Hrs. apply (Hmem v shown Hf) in Hrs as [_ H]. congruence.
  - intros Hnan. split.
    + apply elem_of_unique, elem_of_dropna. split; assumption.
    + intros v shown Hf. rewrite (Hmem v shown Hf). tauto.
Qed.

(** The second row of the sample expenditure table is in the view of
    "Kerala" and not in the view of "Goa". *)
Lemma rows_reached_by_the_filter_witness :
  exists x : cell,
    row_cell (columns sample_expenditure) "State" [Str "Kerala"; Num 7] = Some x
    /\ x = Str "Kerala"
    /\ x ∈ unique (dropna [Str "Goa"; Str "Kerala"; Str "Goa"]).
Proof.
  destruct (rows_reached_by_the_filter sample_expenditure "State"
              [Str "Goa"; Str "Kerala"; Str "Goa"] (1%Z, [Str "Kerala"; Num 7])
              sample_expenditure_well_formed eq_refl)
    as (x & Hx & _ & Hval).
  - right. left.
  - exists x. split; [exact Hx|].
    assert (Hk : x = Str "Kerala") by (simpl in Hx; congruence).
    split; [exact Hk|]. apply Hval. rewrite Hk. discriminate.
Defined.

(** ** Loading the three tables *)

(** What the loading lines 42-44 leave behind when the two strict readings
    succeed: the three names are bound, and the bad reading of the
    income-tax file, if any, is an error box on the page. *)
Lemma load_data_run (fs : gmap string csv_file) (s : session) (b e : DataFrame) :
  read_csv fs "Combined_Financial_Data.csv" bad_lines_error = Ok b ->
  read_csv fs "Expenditure.csv" bad_lines_error = Ok e ->
  load_data fs s
  = match read_csv fs "Income Tax.csv" bad_lines_skip with
    | Ok i =>
        (Ok tt,
         mkSession (<["income_tax_data" := i]>
                     (<["expenditure_data" := e]>
                       (<["budget_data" := b]> (globals s))))
                   (page s) (requests s))
    | Raise err =>
        (Ok tt,
         mkSession (<["income_tax_data" := empty_DataFrame]>
                     (<["expenditure_data" := e]>
                       (<["budget_data" := b]> (globals s))))
                   (page s ++ [ErrorBox ("Error loading Income Tax Data: "
                                          ++ exn_str err)%string])
                   (requests s))
    end.
Proof.
  intros Hb He. unfold load_data.
  erewrite bind_Ok by (rewrite load_budget_data_run, Hb; reflexivity). run.
  erewrite bind_Ok by (rewrite load_expenditure_data_run, He; reflexivity). run.
  pose proof (load_income_tax_data_run fs) as Hload.
  destruct (read_csv fs "Income Tax.csv" bad_lines_skip) as [i|err];
    erewrite bind_Ok by apply Hload; reflexivity.
Qed.

(** X7.  Whether the loading lines 42-44 end or raise is decided by the
    budget file first and the expenditure file next; the income-tax file
    never makes them raise. *)
Theorem load_data_outcome (fs : gmap string csv_file) (s : session) :
  fst (load_data fs s)
  = match read_csv fs "Combined_Financial_Data.csv" bad_lines_error with
    | Raise e => Raise e
    | Ok _ =>
        match read_csv fs "Expenditure.csv" bad_lines_error with
        | Raise e => Raise e
        | Ok _ => Ok tt
        end
    end.
Proof.
  destruct (read_csv fs "Combined_Financial_Data.csv" bad_lines_error)
    as [b|err] eqn:Hb.
  - destruct (read_csv fs "Expenditure.csv" bad_lines_error) as [e|err] eqn:He.
    + rewrite (load_data_run fs s b e Hb He).
      destruct (read_csv fs "Income Tax.csv" bad_lines_skip); reflexivity.
    + unfold load_data.
      erewrite bind_Ok by (rewrite load_budget_data_run, Hb; reflexivity). run.
      erewrite bind_Raise by (rewrite load_expenditure_data_run, He; reflexivity).
      reflexivity.
  - unfold load_data.
    erewrite bind_Raise by (rewrite load_budget_data_run, Hb; reflexivity).
    reflexivity.
Qed.


(** ** Requests to the hosted model *)

Lemma quiet_ret {A : Type} (a : A) : sends_nothing (ret a).
Proof. intros s. reflexivity. Qed.

Lemma quiet_lift {A : Type} (r : result A) : sends_nothing (lift r).
Proof. intros s. reflexivity. Qed.

Lemma quiet_emit (e : element) : sends_nothing (emit e).
Proof. intros s. reflexivity. Qed.

Lemma quiet_getvar (name : string) : sends_nothing (getvar name).
Proof. intros s. unfold getvar. destruct (globals s !! name); reflexivity. Qed.

Lemma quiet_setvar (name : string) (df : DataFrame) : sends_nothing (setvar name df).
Proof. intros s. reflexivity. Qed.

Lemma quiet_bind {A B : Type} (m : M A) (k : A -> M B) :
  sends_nothing m -> (forall a, sends_nothing (k a)) -> sends_nothing (bind m k).
Proof.
  intros Hm Hk s. unfold bind. specialize (Hm s).
  destruct (m s) as [[a|e] s1]; simpl in *.
  - rewrite (Hk a s1). exact Hm.
  - exact Hm.
Qed.

Lemma quiet_try_except {A : Type} (body : M A) (handler : exn -> M A) :
  sends_nothing body -> (forall e, sends_nothing (handler e)) ->
  sends_nothing (try_except body handler).
Proof.
  intros Hb Hh s. unfold try_except. specialize (Hb s).
  destruct (body s) as [[a|e] s1]; simpl in *.
  - exact Hb.
  - rewrite (Hh e s1). exact Hb.
Qed.

Ltac quiet :=
  repeat first
    [ apply quiet_ret
    | apply quiet_lift
    | apply quiet_emit
    | apply quiet_getvar
    | apply quiet_setvar
    | apply quiet_try_except; [| intros ]
    | apply quiet_bind; [| intros ]
    | match goal with
      | |- sends_nothing (if ?b then _ else _) => destruct b
      end ].

Lemma quiet_load_data (fs : gmap string csv_file) : sends_nothing (load_data fs).
Proof.
  unfold load_data, load_budget_data, load_expenditure_data, load_income_tax_data,
    st_error.
  quiet.
Qed.

Lemma quiet_chart_section (chart_type : scalar) (var : string)
    (x_axis y_axis selected : scalar) :
  sends_nothing (chart_section chart_type var x_axis y_axis selected).
Proof. unfold chart_section, st_plotly_chart. quiet. Qed.

Lemma quiet_budget_tab (ui : inputs) : sends_nothing (budget_tab ui).
Proof.
  unfold budget_tab, budget_filter, budget_visualize, st_subheader, st_selectbox,
    st_dataframe.
  quiet. apply quiet_chart_section.
Qed.

Lemma quiet_category_tab (ui : inputs) (t : tab_texts) (var filtered_var : string) :
  sends_nothing (category_tab ui t var filtered_var).
Proof.
  unfold category_tab, category_filter, category_visualize, st_subheader, st_write,
    st_write_index, st_selectbox, st_dataframe.
  quiet. all: apply quiet_chart_section.
Qed.

Lemma quiet_dataset_section (ui : inputs) : sends_nothing (dataset_section ui).
Proof.
  unfold dataset_section, st_selectbox.
  apply quiet_bind; [quiet | intros dataset_type].
  destruct (py_eq dataset_type (Some (Str "Budget Data")));
    [apply quiet_budget_tab|].
  destruct (py_eq dataset_type (Some (Str "Expenditure Data"))).
  { unfold expenditure_tab. apply quiet_category_tab. }
  destruct (py_eq dataset_type (Some (Str "Income Tax Data"))).
  { unfold income_tax_tab. apply quiet_category_tab. }
  apply quiet_ret.
Qed.

Lemma one_of_quiet {A : Type} (q : string) (m : M A) :
  sends_nothing m -> sends_at_most_one q m.
Proof. intros H s. left. apply H. Qed.

Lemma one_bind_quiet_l {A B : Type} (q : string) (m : M A) (k : A -> M B) :
  sends_nothing m -> (forall a, sends_at_most_one q (k a)) ->
  sends_at_most_one q (bind m k).
Proof.
  intros Hm Hk s. unfold bind. specialize (Hm s).
  destruct (m s) as [[a|e] s1]; simpl in *.
  - rewrite <- Hm. apply Hk.
  - left. exact Hm.
Qed.

Lemma one_bind_quiet_r {A B : Type} (q : string) (m : M A) (k : A -> M B) :
  sends_at_most_one q m -> (forall a, sends_nothing (k a)) ->
  sends_at_most_one q (bind m k).
Proof.
  intros Hm Hk s. unfold bind. specialize (Hm s).
  destruct (m s) as [[a|e] s1]; simpl in *.
  - rewrite (Hk a s1). exact Hm.
  - exact Hm.
Qed.

Lemma one_answer_question
    (hosted_model : payload -> result (gmap string scalar))
    (to_string : DataFrame -> string) (q : string) :
  sends_at_most_one q (answer_question hosted_model to_string q).
Proof.
  unfold answer_question.
  repeat (apply one_bind_quiet_l; [solve [quiet] | intros]).
  apply one_bind_quiet_r; [| intros; unfold st_write; quiet].
  unfold query_hf_api. apply one_bind_quiet_r; [| intros; quiet].
  intros s. right. unfold api. simpl. eauto.
Qed.

Lemma question_section_run
    (hosted_model : payload -> result (gmap string scalar))
    (to_string : DataFrame -> string) (ui : inputs) (s : session) :
  question_section hosted_model to_string ui s
  = (if negb (String.eqb (typed_question ui) "")
     then answer_question hosted_model to_string (typed_question ui)
     else ret tt)
      (mkSession (globals s)
                 (page s ++ [Markdown "---"; Subheader "🤔 Ask Questions about the Data";
                             TextInput "Enter your question about the data:"])
                 (requests s)).
Proof.
  unfold question_section, st_markdown, st_subheader, st_text_input. run.
  rewrite <- !app_assoc. reflexivity.
Qed.

Lemma one_question_section
    (hosted_model : payload -> result (gmap string scalar))
    (to_string : DataFrame -> string) (ui : inputs) :
  sends_at_most_one (typed_question ui)
                    (question_section hosted_model to_string ui)
  /\ (typed_question ui = ""%string ->
      sends_nothing (question_section hosted_model to_string ui)).
Proof.
  split.
  - intros s. rewrite question_section_run.
    destruct (negb (String.eqb (typed_question ui) "")).
    + apply (one_answer_question hosted_model to_string (typed_question ui)
               (mkSession (globals s) _ (requests s))).
    + left. reflexivity.
  - intros Hq s. rewrite question_section_run, Hq. reflexivity.
Qed.

(** X9.  A run of the script sends at most one request to the hosted
    model, and the question of that request is the text the user typed; a
    run in which the user typed nothing sends none.  This holds whatever
    the files, the picks and the outcome of the run. *)
Theorem app_sends_at_most_one_request
    (hosted_model : payload -> result (gmap string scalar))
    (to_string : DataFrame -> string) (fs : gmap string csv_file) (ui : inputs)
    (s : session) :
  (requests (snd (app hosted_model to_string fs ui s)) = requests s
   \/ exists ctx : string,
        requests (snd (app hosted_model to_string fs ui s))
        = requests s ++ [mkPayload (typed_question ui) ctx])
  /\ (typed_question ui = ""%string ->
      requests (snd (app hosted_model to_string fs ui s)) = requests s).
Proof.
  destruct (one_question_section hosted_model to_string ui) as [Hone Hnone].
  split.
  - revert s. change (sends_at_most_one (typed_question ui)
                        (app hosted_model to_string fs ui)).
    unfold app, st_set_page_config, st_title, st_write, st_markdown.
    apply one_bind_quiet_l; [solve [quiet] | intros].
    apply one_bind_quiet_l; [apply quiet_load_data | intros].
    apply one_bind_quiet_l; [solve [quiet] | intros].
    apply one_bind_quiet_l; [solve [quiet] | intros].
    apply one_bind_quiet_l; [solve [quiet] | intros].
    apply one_bind_quiet_l; [apply quiet_dataset_section | intros].
    apply one_bind_quiet_r; [exact Hone | intros; quiet].
  - intros Hq. revert s. change (sends_nothing (app hosted_model to_string fs ui)).
    unfold app, st_set_page_config, st_title, st_write, st_markdown.
    apply quiet_bind; [solve [quiet] | intros].
    apply quiet_bind; [apply quiet_load_data | intros].
    apply quiet_bind; [solve [quiet] | intros].
    apply quiet_bind; [solve [quiet] | intros].
    apply quiet_bind; [solve [quiet] | intros].
    apply quiet_bind; [apply quiet_dataset_section | intros].
    apply quiet_bind; [exact (Hnone Hq) | intros; quiet].
Qed.

(** A run without a question on the sample disk. *)
Lemma app_sends_at_most_one_request_witness :
  requests (snd (app model_answers_42 plain_to_string sample_fs
                     (mkInputs 1 1 2 0 1 "") fresh_session))
  = [].
Proof.
  destruct (app_sends_at_most_one_request model_answers_42 plain_to_string sample_fs
              (mkInputs 1 1 2 0 1 "") fresh_session) as [_ H].
  exact (H eq_refl).
Defined.

(** ** The dataset dropdown *)

(** The dataset dropdown always opens one of the three tabs; the budget
    tab stands for the first option and for any pick outside the list. *)
Lemma dataset_section_run (ui : inputs) (s : session) :
  dataset_section ui s
  = (match dataset_choice ui with
     | 1 => expenditure_tab ui
     | 2 => income_tax_tab ui
     | _ => budget_tab ui
     end)
      (mkSession (globals s)
                 (page s ++ [Selectbox "Select Dataset Type" dataset_types])
                 (requests s)).
Proof.
  unfold dataset_section, st_selectbox. run.
  destruct (dataset_choice ui) as [|[|[|n]]]; reflexivity.
Qed.

(** ** The income-tax tab after a failed reading, in the whole script *)

(** X10.  When the budget and expenditure files are read and the reading of
    the income-tax file fails, the script goes on with the empty table.  If
    the user opens the income-tax tab, the run ends with [IndexError]: the
    page holds the error box of the loader, no table and no chart, and the
    question, typed or not, is not sent to the hosted model. *)
Theorem app_income_tax_tab_after_failed_reading
    (hosted_model : payload -> result (gmap string scalar))
    (to_string : DataFrame -> string) (fs : gmap string csv_file) (ui : inputs)
    (s : session) (b e : DataFrame) (err : exn) :
  read_csv fs "Combined_Financial_Data.csv" bad_lines_error = Ok b ->
  read_csv fs "Expenditure.csv" bad_lines_error = Ok e ->
  read_csv fs "Income Tax.csv" bad_lines_skip = Raise err ->
  dataset_choice ui = 2 ->
  fst (app hosted_model to_string fs ui s)
  = Raise (IndexError "index 0 is out of bounds for axis 0 with size 0")
  /\ error_boxes (page (snd (app hosted_model to_string fs ui s)))
     = error_boxes (page s)
       ++ [("Error loading Income Tax Data: " ++ exn_str err)%string]
  /\ shown_tables (page (snd (app hosted_model to_string fs ui s)))
     = shown_tables (page s)
  /\ shown_charts (page (snd (app hosted_model to_string fs ui s)))
     = shown_charts (page s)
  /\ requests (snd (app hosted_model to_string fs ui s)) = requests s.
Proof.
  intros Hb He Hi Hchoice.
  assert (Hrun : app hosted_model to_string fs ui s
                 = (Raise (IndexError "index 0 is out of bounds for axis 0 with size 0"),
                    mkSession
                      (<["income_tax_data" := empty_DataFrame]>
                        (<["expenditure_data" := e]>
                          (<["budget_data" := b]> (globals s))))
                      (page s
                       ++ [PageConfig "AI-Powered Policy Impact Analyzer" "🤖" "wide";
                           ErrorBox ("Error loading Income Tax Data: "
                                     ++ exn_str err)%string;
                           Title "🤖 AI-Powered Policy Impact Analyzer";
                           Write "
Welcome to the **AI-Powered Policy Impact Analyzer**.  
Switch between datasets and explore insights dynamically.
";
                           Markdown "---";
                           Selectbox "Select Dataset Type" dataset_types;
                           Subheader (tab_subheader income_tax_texts);
                           Write (columns_caption income_tax_texts);
                           WriteIndex []])
                      (requests s))).
  { unfold app, st_set_page_config, st_title, st_write, st_markdown. run.
    pose proof (load_data_run fs
                  (mkSession (globals s)
                     (page s ++ [PageConfig "AI-Powered Policy Impact Analyzer" "🤖" "wide"])
                     (requests s)) b e Hb He) as Hload.
    rewrite Hi in Hload. cbn [globals page requests] in Hload.
    rewrite (bind_Ok _ _ _ _ _ Hload). run.
    erewrite bind_Raise; [reflexivity|].
    rewrite dataset_section_run, Hchoice. cbn [globals page requests].
    unfold income_tax_tab.
    erewrite category_tab_no_columns; [| lookup_var | reflexivity].
    cbn [globals page requests]. rewrite <- !app_assoc. reflexivity. }
  rewrite Hrun. cbn [fst snd page requests].
  rewrite error_boxes_app, shown_tables_app, shown_charts_app. simpl.
  rewrite !app_nil_r. repeat split; reflexivity.
Qed.

(** A disk with the budget and expenditure files only; the user opens the
    income-tax tab and asks a question. *)
Lemma app_income_tax_tab_after_failed_reading_witness :
  fst (app model_answers_42 plain_to_string
           (delete "Income Tax.csv" sample_fs) (mkInputs 2 0 0 0 1 "Why?")
           fresh_session)
  = Raise (IndexError "index 0 is out of bounds for axis 0 with size 0")
  /\ error_boxes
       (page (snd (app model_answers_42 plain_to_string
                       (delete "Income Tax.csv" sample_fs) (mkInputs 2 0 0 0 1 "Why?")
                       fresh_session)))
     = ["Error loading Income Tax Data: [Errno 2] No such file or directory: 'Income Tax.csv'"%string]
  /\ requests (snd (app model_answers_42 plain_to_string
                        (delete "Income Tax.csv" sample_fs) (mkInputs 2 0 0 0 1 "Why?")
                        fresh_session))
     = [].
Proof.
  assert (Hb : read_csv (delete "Income Tax.csv" sample_fs)
                 "Combined_Financial_Data.csv" bad_lines_error = Ok sample_budget)
    by (vm_compute; reflexivity).
  assert (He : read_csv (delete "Income Tax.csv" sample_fs)
                 "Expenditure.csv" bad_lines_error = Ok sample_expenditure)
    by (vm_compute; reflexivity).
  assert (Hi : read_csv (delete "Income Tax.csv" sample_fs)
                 "Income Tax.csv" bad_lines_skip
               = Raise (FileNotFoundError "Income Tax.csv"))
    by (vm_compute; reflexivity).
  destruct (app_income_tax_tab_after_failed_reading
              model_answers_42 plain_to_string (delete "Income Tax.csv" sample_fs)
              (mkInputs 2 0 0 0 1 "Why?") fresh_session
              sample_budget sample_expenditure (FileNotFoundError "Income Tax.csv")
              Hb He Hi eq_refl) as (H1 & H2 & _ & _ & H5).
  split; [exact H1|]. split; [exact H2 | exact H5].
Defined.

(** ** The table of all data (line 176) *)

Lemma distinct_names_spec (names : list string) :
  forall seen,
    NoDup (distinct_names seen names)
    /\ forall c, c ∈ distinct_names seen names <-> c ∈ names /\ c ∉ seen.
Proof.
  induction names as [|n names IH]; intros seen; simpl.
  - split; [constructor|]. intros c. split; [intros H; inversion H|].
    intros [H _]. inversion H.
  - destruct (bool_decide (n ∈ seen)) eqn:E.
    + apply bool_decide_eq_true in E. destruct (IH seen) as [Hnd Hin].
      split; [exact Hnd|]. intros c. rewrite Hin, elem_of_cons. split.
      * intros [H1 H2]. split; [right; exact H1 | exact H2].
      * intros [[-> | H1] H2]; [contradiction | split; assumption].
    + apply bool_decide_eq_false in E. destruct (IH (n :: seen)) as [Hnd Hin].
      split.
      * constructor; [| exact Hnd]. rewrite Hin. intros [_ H]. apply H. left.
      * intros c. rewrite !elem_of_cons, Hin, elem_of_cons. split.
        -- intros [-> | [H1 H2]]; [split; [left; reflexivity | exact E]|].
           split; [right; exact H1 | intros H; apply H2; right; exact H].
        -- intros [[-> | H1] H2]; [left; reflexivity|].
           destruct (decide (c = n)) as [-> | Hne]; [left; reflexivity|].
           right. split; [exact H1|]. intros [-> | H]; [congruence | contradiction].
Qed.

Lemma column_or_missing_length (c : string) (df : DataFrame) :
  well_formed df -> length (column_or_missing c df) = length (index df).
Proof.
  intros Hwf. unfold column_or_missing.
  destruct (lookup_col c (data df)) as [col|] eqn:E.
  - apply (well_formed_column df c col Hwf E).
  - apply repeat_length.
Qed.

Lemma flat_map_length_sum {A B C : Type} (f : A -> list B) (g : A -> list C)
    (l : list A) :
  Forall (fun x => length (f x) = length (g x)) l ->
  length (flat_map f l) = length (flat_map g l).
Proof.
  induction 1 as [|x l Hx _ IH]; simpl; [reflexivity|].
  rewrite !length_app, Hx, IH. reflexivity.
Qed.

Lemma flat_map_length {A B : Type} (f : A -> list B) (l : list A) :
  length (flat_map f l) = sum_list (map (fun x => length (f x)) l).
Proof.
  induction l as [|x l IH]; simpl; [reflexivity|].
  rewrite length_app, IH. reflexivity.
Qed.

(** X11.  The table made of well-formed tables is well formed.  Its column
    names are the column names of the tables, each once; its rows are
    labelled 0, 1, 2, ... anew, and there are as many as in all the tables
    together. *)
Theorem concat_ignore_index_shape (frames : list DataFrame) :
  Forall well_formed frames ->
  well_formed (concat_ignore_index frames)
  /\ NoDup (columns (concat_ignore_index frames))
  /\ (forall c : string,
        c ∈ columns (concat_ignore_index frames)
        <-> exists df : DataFrame, df ∈ frames /\ c ∈ columns df)
  /\ index (concat_ignore_index frames)
     = range_index (sum_list (map (fun df => length (rows df)) frames))
  /\ length (rows (concat_ignore_index frames))
     = sum_list (map (fun df => length (rows df)) frames).
Proof.
  intros Hwf.
  assert (Hsum : length (flat_map index frames)
                 = sum_list (map (fun df => length (rows df)) frames)).
  { rewrite flat_map_length. f_equal. apply map_ext. intros df.
    symmetry. apply rows_length. }
  destruct (distinct_names_spec (flat_map columns frames) []) as [Hnd Hin].
  split; [| split; [| split; [| split]]].
  - unfold well_formed, concat_ignore_index; simpl.
    apply Forall_map. apply Forall_forall. intros c _. simpl.
    rewrite range_index_length. apply flat_map_length_sum.
    eapply Forall_impl; [exact Hwf|]. intros df Hdf.
    apply column_or_missing_length. exact Hdf.
  - rewrite concat_columns. exact Hnd.
  - intros c. rewrite concat_columns, Hin. split.
    + intros [Hc _]. apply list_elem_of_In, in_flat_map in Hc as (df & Hdf & Hc).
      exists df. split; apply list_elem_of_In; assumption.
    + intros (df & Hdf & Hc). split; [| intros H; inversion H].
      apply list_elem_of_In, in_flat_map. exists df.
      split; apply list_elem_of_In; assumption.
  - unfold concat_ignore_index; simpl. rewrite Hsum. reflexivity.
  - rewrite rows_length. unfold concat_ignore_index; simpl.
    rewrite range_index_length. exact Hsum.
Qed.

(** The three sample tables. *)
Lemma concat_ignore_index_shape_witness :
  well_formed (concat_ignore_index [sample_budget; sample_expenditure; sample_income_tax])
  /\ index (concat_ignore_index [sample_budget; sample_expenditure; sample_income_tax])
     = [0; 1; 2; 3; 4; 5; 6; 7]%Z
  /\ columns (concat_ignore_index [sample_budget; sample_expenditure; sample_income_tax])
     = ["Source"; "Year"; "Amount"; "State"; "Spend"; "Bracket"; "Rate"]%string.
Proof.
  destruct (concat_ignore_index_shape
              [sample_budget; sample_expenditure; sample_income_tax])
    as (H1 & _ & _ & H4 & _).
  - repeat constructor.
  - split; [exact H1|]. split; [exact H4 | reflexivity].
Defined.

(** An empty table adds nothing to the table of all data. *)
Lemma concat_ignores_empty_table (frames1 frames2 : list DataFrame) :
  concat_ignore_index (frames1 ++ empty_DataFrame :: frames2)
  = concat_ignore_index (frames1 ++ frames2).
Proof.
  unfold concat_ignore_index. rewrite !flat_map_app. simpl. f_equal.
  apply map_ext. intros c. rewrite !flat_map_app. reflexivity.
Qed.

Lemma answer_question_requests
    (hosted_model : payload -> result (gmap string scalar))
    (to_string : DataFrame -> string) (q : string) (s : session)
    (b e i : DataFrame) :
  globals s !! "budget_data" = Some b ->
  globals s !! "expenditure_data" = Some e ->
  globals s !! "income_tax_data" = Some i ->
  requests (snd (answer_question hosted_model to_string q s))
  = requests s ++ [mkPayload q (to_string (concat_ignore_index [b; e; i]))].
Proof.
  intros Hb He Hi. unfold answer_question. run.
  unfold query_hf_api, st_write. rewrite bind_bind.
  unfold bind at 1. unfold api. cbn [globals page requests].
  destruct (hosted_model _) as [response|err]; reflexivity.
Qed.

(** X12.  After a failed reading of the income-tax file the income-tax
    table is the empty table (line 38), and the context sent with a
    question is the text of the budget and expenditure tables alone: the
    empty table adds no column and no row to it (line 176). *)
Theorem question_context_without_income_tax
    (hosted_model : payload -> result (gmap string scalar))
    (to_string : DataFrame -> string) (q : string) (s : session)
    (b e : DataFrame) :
  globals s !! "budget_data" = Some b ->
  globals s !! "expenditure_data" = Some e ->
  globals s !! "income_tax_data" = Some empty_DataFrame ->
  concat_ignore_index [b; e; empty_DataFrame] = concat_ignore_index [b; e]
  /\ requests (snd (answer_question hosted_model to_string q s))
     = requests s ++ [mkPayload q (to_string (concat_ignore_index [b; e]))].
Proof.
  intros Hb He Hi.
  pose proof (concat_ignores_empty_table [b; e] []) as Hc. simpl in Hc.
  split; [exact Hc|].
  rewrite (answer_question_requests hosted_model to_string q s b e empty_DataFrame
             Hb He Hi), Hc.
  reflexivity.
Qed.

(** The sample session with the empty table as income-tax table. *)
Lemma question_context_without_income_tax_witness :
  requests (snd (answer_question model_answers_42 plain_to_string "Why?"
                   (session_with sample_budget sample_expenditure empty_DataFrame)))
  = [mkPayload "Why?" "Source Year Amount State Spend"].
Proof.
  destruct (question_context_without_income_tax
              model_answers_42 plain_to_string "Why?"
              (session_with sample_budget sample_expenditure empty_DataFrame)
              sample_budget sample_expenditure eq_refl eq_refl eq_refl) as [_ H].
  exact H.
Defined.

(** ** The tabs when every Streamlit call succeeds *)

Lemma budget_tab_runs (ui : inputs) (s : session) (df : DataFrame) (col : Series) :
  globals s !! "budget_data" = Some df ->
  well_formed df ->
  getitem_col df "Source" = Ok col ->
  exists s' : session, budget_tab ui s = (Ok tt, s').
Proof.
  intros Hvar Hwf Hcol.
  destruct (budget_filter_run ui s df col Hvar Hwf Hcol)
    as (s1 & shown & Hrun & _ & _ & Hf & Hglob).
  destruct (filter_by_rows df "Source" (pick (unique (dropna col)) (filter_choice ui))
              col Hwf Hcol) as (shown' & Hf' & Hcols & _).
  assert (shown' = shown) as -> by congruence.
  assert (Hne : columns shown <> []).
  { rewrite Hcols. pose proof (getitem_col_in_columns df _ col Hcol) as Hin.
    intros Hnil. rewrite Hnil in Hin. inversion Hin. }
  assert (Hvar1 : globals s1 !! "filtered_budget_data" = Some shown).
  { rewrite Hglob. apply lookup_insert_eq. }
  destruct (budget_visualize_run ui (pick (unique (dropna col)) (filter_choice ui))
              s1 shown Hvar1 Hne) as (fig & Hvis & _).
  unfold budget_tab. rewrite (bind_Ok _ _ _ _ _ Hrun), Hvis. eauto.
Qed.

Lemma dataset_section_runs (ui : inputs) (s : session) (b e i : DataFrame)
    (col : Series) :
  globals s !! "budget_data" = Some b ->
  globals s !! "expenditure_data" = Some e ->
  globals s !! "income_tax_data" = Some i ->
  well_formed b -> well_formed e -> well_formed i ->
  getitem_col b "Source" = Ok col ->
  columns e <> [] ->
  columns i <> [] ->
  exists s' : session, dataset_section ui s = (Ok tt, s').
Proof.
  intros Hb He Hi Hwb Hwe Hwi Hcol Hce Hci.
  rewrite dataset_section_run.
  destruct (dataset_choice ui) as [|[|[|n]]].
  - apply (budget_tab_runs ui _ b col); assumption.
  - unfold expenditure_tab.
    apply (category_tab_runs ui expenditure_texts _ _ _ e);
      try assumption; discriminate.
  - unfold income_tax_tab.
    apply (category_tab_runs ui income_tax_texts _ _ _ i);
      try assumption; discriminate.
  - apply (budget_tab_runs ui _ b col); assumption.
Qed.


(** ** A run in which the hosted model fails *)

Lemma answer_question_raises
    (hosted_model : payload -> result (gmap string scalar))
    (to_string : DataFrame -> string) (q : string) (s : session)
    (b e i : DataFrame) (err : exn) :
  globals s !! "budget_data" = Some b ->
  globals s !! "expenditure_data" = Some e ->
  globals s !! "income_tax_data" = Some i ->
  hosted_model (mkPayload q (to_string (concat_ignore_index [b; e; i]))) = Raise err ->
  answer_question hosted_model to_string q s
  = (Raise err,
     mkSession (<["all_data" := concat_ignore_index [b; e; i]]> (globals s))
               (page s)
               (requests s
                ++ [mkPayload q (to_string (concat_ignore_index [b; e; i]))])).
Proof.
  intros Hb He Hi Hmodel. unfold answer_question. run.
  unfold query_hf_api, st_write. rewrite bind_bind.
  unfold bind at 1. unfold api. cbn [globals page requests].
  rewrite Hmodel. reflexivity.
Qed.

(** X14.  When the files are read and the tab is drawn but the call of the
    hosted model fails, the run of the script ends with the exception of
    the call: the request was sent, and the page ends at the question box,
    without answer and without footer. *)
Theorem app_stops_when_the_hosted_model_fails
    (hosted_model : payload -> result (gmap string scalar))
    (to_string : DataFrame -> string) (fs : gmap string csv_file) (ui : inputs)
    (s : session) (b e i : DataFrame) (col : Series) (err : exn) :
  read_csv fs "Combined_Financial_Data.csv" bad_lines_error = Ok b ->
  read_csv fs "Expenditure.csv" bad_lines_error = Ok e ->
  read_csv fs "Income Tax.csv" bad_lines_skip = Ok i ->
  getitem_col b "Source" = Ok col ->
  columns e <> [] ->
  columns i <> [] ->
  typed_question ui <> ""%string ->
  hosted_model (mkPayload (typed_question ui)
                          (to_string (concat_ignore_index [b; e; i])))
  = Raise err ->
  fst (app hosted_model to_string fs ui s) = Raise err
  /\ requests (snd (app hosted_model to_string fs ui s))
     = requests s ++ [mkPayload (typed_question ui)
                                (to_string (concat_ignore_index [b; e; i]))]
  /\ last (page (snd (app hosted_model to_string fs ui s)))
     = Some (TextInput "Enter your question about the data:").
Proof.
  intros Hb He Hi Hcol Hce Hci Hq Hmodel.
  apply String.eqb_neq in Hq.
  pose proof (read_csv_well_formed _ _ _ _ Hb) as Hwb.
  pose proof (read_csv_well_formed _ _ _ _ He) as Hwe.
  pose proof (read_csv_well_formed _ _ _ _ Hi) as Hwi.
  unfold app, st_set_page_config, st_title, st_write, st_markdown. run.
  pose proof (load_data_run fs
                (mkSession (globals s)
                   (page s ++ [PageConfig "AI-Powered Policy Impact Analyzer" "🤖" "wide"])
                   (requests s)) b e Hb He) as Hload.
  rewrite Hi in Hload. cbn [globals page requests] in Hload.
  rewrite (bind_Ok _ _ _ _ _ Hload). run.
  match goal with
  | |- context [bind (dataset_section ui) _ ?s1] =>
      destruct (dataset_section_runs ui s1 b e i col) as [s2 Htab];
        try assumption; try lookup_var;
        pose proof (keeps_dataset_section ui s1) as Hkeep;
        pose proof (quiet_dataset_section ui s1) as Hquiet
  end.
  rewrite Htab in Hkeep, Hquiet. simpl snd in Hkeep, Hquiet.
  cbn [requests] in Hquiet.
  unfold loaded_tables in Hkeep. cbn [globals] in Hkeep.
  rewrite lookup_insert_eq in Hkeep.
  rewrite (lookup_insert_ne _ "income_tax_data" "expenditure_data") in Hkeep
    by discriminate.
  rewrite lookup_insert_eq in Hkeep.
  rewrite !(lookup_insert_ne _ _ "budget_data") in Hkeep by discriminate.
  rewrite lookup_insert_eq in Hkeep.
  injection Hkeep as Hb2 He2 Hi2.
  rewrite (bind_Ok _ _ _ _ _ Htab).
  erewrite bind_Raise.
  2:{ rewrite question_section_run, Hq. cbn [negb].
      apply (answer_question_raises hosted_model to_string _ _ b e i err);
        try assumption; lookup_var. }
  cbn [fst snd page requests]. rewrite Hquiet.
  split; [reflexivity|]. split; [reflexivity|].
  match goal with
  | |- last (?l ++ [?x; ?y; ?z]) = _ =>
      change (l ++ [x; y; z]) with (l ++ ([x; y] ++ [z]));
      rewrite app_assoc; apply last_snoc
  end.
Qed.

(** The sample disk and the stub that cannot be reached. *)
Lemma app_stops_when_the_hosted_model_fails_witness :
  fst (app model_unreachable plain_to_string sample_fs sample_inputs fresh_session)
  = Raise (HTTPError "503 Server Error: Service Unavailable")
  /\ requests (snd (app model_unreachable plain_to_string sample_fs sample_inputs
                        fresh_session))
     = [mkPayload "What is the rate?" "Source Year Amount State Spend Bracket Rate"].
Proof.
  assert (Hb : read_csv sample_fs "Combined_Financial_Data.csv" bad_lines_error
               = Ok sample_budget) by (vm_compute; reflexivity).
  assert (He : read_csv sample_fs "Expenditure.csv" bad_lines_error
               = Ok sample_expenditure) by (vm_compute; reflexivity).
  assert (Hi : read_csv sample_fs "Income Tax.csv" bad_lines_skip
               = Ok sample_income_tax) by (vm_compute; reflexivity).
  destruct (app_stops_when_the_hosted_model_fails
              model_unreachable plain_to_string sample_fs sample_inputs fresh_session
              sample_budget sample_expenditure sample_income_tax
              [Str "A"; Str "B"; Str "A"]
              (HTTPError "503 Server Error: Service Unavailable")
              Hb He Hi eq_refl) as (H1 & H2 & _).
  - discriminate.
  - discriminate.
  - discriminate.
  - reflexivity.
  - split; [exact H1 | exact H2].
Defined.
